(** * weektime: weekly time ranges and their membership tests

    A shallow embedding of [weektime/__init__.py] (python-weektime 1.0.0):
    the day-name resolution [dayStrToNumber], the class [WeekRange] (its
    constructor, its ten comparison methods and [createFromStr]) and the list
    class [WeekRanges] with its [createFromStr].

    Python integers are [Z], Python [str] values are [string] (ASCII), [None]
    is [None] of an [option], exceptions are values of [exn] carried by
    [Result], and the one effect the comparison methods have, a call of
    [pdb.set_trace()], is recorded in the event trace of [Run]. *)

From Stdlib Require Import ZArith Lia Bool List String Ascii.
From Stdlib Require Import DecimalString.
Import ListNotations.

Local Open Scope Z_scope.

(** ** Exceptions and results *)

(** The texts of the exceptions the module raises. The two day messages and
    the format message quote the offending text, kept here as an argument. *)
Inductive Message : Type :=
| MsgInvalidDay (dayStr : string)
    (* 'Day "%s" provided to WeekRange is invalid. Should be a number ...' *)
| MsgEndDayOmitted
    (* 'Start and end day must both be empty, both defined, or start day may
        be defined if the end time is AFTER the start time ...' *)
| MsgDaysBothOrNeither
    (* 'Start and end day must both be empty or both be defined.' *)
| MsgSameTime
    (* 'Start and end time cannot be the same.' *)
| MsgFormat (rangeStr : string).
    (* 'Provided time string to WeekRange.createFromStr does not match
        expected format. Got "%s", was expecting ...' *)

(** [WeekRangeValueError] is the module's own subclass of the builtin
    [ValueError]; [TypeError] is what Python 3 raises when an [int] is
    ordered against [None]. *)
Inductive exn : Type :=
| WeekRangeValueError (m : Message)
| ValueError (m : Message)
| TypeError.

(** [isinstance(e, WeekRangeValueError)] *)
Definition is_WeekRangeValueError (e : exn) : bool :=
  match e with
  | WeekRangeValueError _ => true
  | _ => false
  end.

(** [isinstance(e, ValueError)]: true of the subclass too. *)
Definition is_ValueError (e : exn) : bool :=
  match e with
  | WeekRangeValueError _ | ValueError _ => true
  | TypeError => false
  end.

Inductive Result (A : Type) : Type :=
| Ok (a : A)
| Raise (e : exn).

Arguments Ok {A} a.
Arguments Raise {A} e.

Definition bindR {A B : Type} (r : Result A) (k : A -> Result B) : Result B :=
  match r with
  | Ok a => k a
  | Raise e => Raise e
  end.

Declare Scope result_scope.
Delimit Scope result_scope with result.
Notation "x <- r ;; k" := (bindR r (fun x => k))
  (at level 61, r at next level, right associativity) : result_scope.

(** ** The string methods the module calls *)

Module Py.

Local Open Scope string_scope.

Definition code (c : ascii) : nat := nat_of_ascii c.

Definition between (lo hi : nat) (c : ascii) : bool :=
  (Nat.leb lo (code c) && Nat.leb (code c) hi)%bool.

(** one character of [\d] / [str.isdigit], ASCII *)
Definition is_digit (c : ascii) : bool := between 48 57 c.

(** one character of [[a-zA-Z]] *)
Definition is_alpha (c : ascii) : bool :=
  (between 65 90 c || between 97 122 c)%bool.

(** [c.isspace()] for an ASCII character of a Python 3 [str]:
    tab, line feed, vertical tab, form feed, carriage return, the four
    separators 0x1c..0x1f and the blank. *)
Definition is_space (c : ascii) : bool :=
  (between 9 13 c || between 28 32 c)%bool.

Fixpoint all_chars (p : ascii -> bool) (s : string) : bool :=
  match s with
  | EmptyString => true
  | String c s' => (p c && all_chars p s')%bool
  end.

Definition is_empty (s : string) : bool :=
  match s with
  | EmptyString => true
  | String _ _ => false
  end.

(** [s.isdigit()]: at least one character, and all of them digits. *)
Definition isdigit (s : string) : bool :=
  (negb (is_empty s) && all_chars is_digit s)%bool.

Fixpoint int_digits (acc : Z) (s : string) : Z :=
  match s with
  | EmptyString => acc
  | String c s' => int_digits (10 * acc + (Z.of_nat (code c) - 48)) s'
  end.

(** [int(s)] for a string of decimal digits, the only strings the module
    converts: what passed [isdigit] and the digit groups of the regular
    expression. *)
Definition int (s : string) : Z := int_digits 0 s.

Definition lower_char (c : ascii) : ascii :=
  if between 65 90 c then ascii_of_nat (code c + 32) else c.

(** [s.lower()] *)
Fixpoint lower (s : string) : string :=
  match s with
  | EmptyString => EmptyString
  | String c s' => String (lower_char c) (lower s')
  end.

(** [len(s)] *)
Definition len (s : string) : Z := Z.of_nat (String.length s).

(** [s[:n]] *)
Definition prefix (n : nat) (s : string) : string := substring 0 n s.

(** [l.index(x)]: the first position holding [x]; [None] stands for the
    [ValueError] the list method raises. *)
Fixpoint index (x : string) (l : list string) : option Z :=
  match l with
  | [] => None
  | y :: l' =>
      if String.eqb y x then Some 0
      else match index x l' with
           | Some i => Some (i + 1)
           | None => None
           end
  end.

Fixpoint lstrip (s : string) : string :=
  match s with
  | EmptyString => EmptyString
  | String c s' => if is_space c then lstrip s' else s
  end.

Fixpoint rstrip (s : string) : string :=
  match s with
  | EmptyString => EmptyString
  | String c s' =>
      let r := rstrip s' in
      if (is_empty r && is_space c)%bool then EmptyString else String c r
  end.

(** [s.strip()] *)
Definition strip (s : string) : string := rstrip (lstrip s).

(** [s.split(sep)] for a one-character separator: never the empty list. *)
Fixpoint split (sep : ascii) (s : string) : list string :=
  match s with
  | EmptyString => [EmptyString]
  | String c s' =>
      if Ascii.eqb c sep then EmptyString :: split sep s'
      else match split sep s' with
           | h :: t => String c h :: t
           | [] => [String c EmptyString]
           end
  end.

(** [str(z)] for an [int]: its decimal digits, after a minus sign when it
    is negative. *)
Definition str (z : Z) : string := NilZero.string_of_int (Z.to_int z).

Fixpoint zeros (n : nat) : string :=
  match n with
  | O => EmptyString
  | S n' => String "0" (zeros n')
  end.

(** [s.zfill(width)]: zeros on the left up to [width] characters, after the
    sign when [s] starts with one. *)
Definition zfill (width : nat) (s : string) : string :=
  let fill := zeros (width - String.length s) in
  match s with
  | EmptyString => fill
  | String c s' =>
      if (Ascii.eqb c "+" || Ascii.eqb c "-")%bool
      then String c (fill ++ s')
      else fill ++ s
  end.

(** [l[i]] for an [int] index: positions count from the end when [i] is
    negative; [None] stands for the [IndexError] outside the list. *)
Definition getitem (l : list string) (i : Z) : option string :=
  let n := Z.of_nat (List.length l) in
  if ((0 <=? i)%Z && (i <? n)%Z)%bool then nth_error l (Z.to_nat i)
  else if ((- n <=? i)%Z && (i <? 0)%Z)%bool
  then nth_error l (Z.to_nat (n + i))
  else None.

End Py.

(** ** Week day names *)

Section WeekDays.

(** The module's global [__weekDayAbbreviations]: the locale's abbreviated
    week day names, Sunday first, computed once by [getWeekDayNames] from
    the clock and the locale. *)
Variable __weekDayAbbreviations : list string.

Definition getWeekDayAbbreviations (lower : bool) : list string :=
  if lower then map Py.lower __weekDayAbbreviations
  else map (fun x => x) __weekDayAbbreviations.

Definition dayStrToNumber (dayStr : string) : Result Z :=
  if Py.isdigit dayStr then
    let dayNum := Py.int dayStr in
    if dayNum >=? 7 then Raise (WeekRangeValueError (MsgInvalidDay dayStr))
    else Ok dayNum
  else
    let dayStr := Py.lower dayStr in
    let dayStr := if Py.len dayStr >? 3 then Py.prefix 3 dayStr else dayStr in
    let weekDayAbbreviations := getWeekDayAbbreviations true in
    match Py.index dayStr weekDayAbbreviations with
    | Some i => Ok i
    | None => Raise (WeekRangeValueError (MsgInvalidDay dayStr))
    end.

End WeekDays.

(** The table in the C and English locales. *)
Definition english : list string :=
  ["Sun"; "Mon"; "Tue"; "Wed"; "Thu"; "Fri"; "Sat"]%string.

(** ** Instants *)

(** What the comparison methods read of a [datetime.datetime]: the week day
    number [int(datetimeObj.strftime('%w'))] (Sunday is 0), [.hour] and
    [.minute]. *)
Module datetime.

Record t : Type := mk {
  strftime_w : Z;
  hour : Z;
  minute : Z
}.

(** The values a real [datetime.datetime] can expose. *)
Definition valid (d : t) : Prop :=
  0 <= strftime_w d <= 6 /\ 0 <= hour d <= 23 /\ 0 <= minute d <= 59.

End datetime.

(** ** Runs of a comparison method *)

(** The debugger breakpoint [pdb.set_trace()]: the interpreter stops and
    hands the terminal to the interactive debugger. *)
Inductive Event : Type :=
| pdb_set_trace.

(** A run of a method: the events it performed, in order, and how it ended.
    The outcome after a breakpoint is that of the method's own code, that is
    what the caller receives once the debugger session continues the frame. *)
Record Run (A : Type) : Type := mkRun {
  events : list Event;
  outcome : Result A
}.

Arguments mkRun {A} events outcome.
Arguments events {A} r.
Arguments outcome {A} r.

Definition ret {A : Type} (a : A) : Run A := mkRun [] (Ok a).

Definition raise {A : Type} (e : exn) : Run A := mkRun [] (Raise e).

Definition emit (ev : Event) : Run unit := mkRun [ev] (Ok tt).

Definition bind {A B : Type} (r : Run A) (k : A -> Run B) : Run B :=
  match outcome r with
  | Ok a => mkRun (events r ++ events (k a)) (outcome (k a))
  | Raise e => mkRun (events r) (Raise e)
  end.

Declare Scope run_scope.
Delimit Scope run_scope with run.
Notation "x <- r ;; k" := (bind r (fun x => k))
  (at level 61, r at next level, right associativity) : run_scope.
Notation "r ;;; k" := (bind r (fun _ => k))
  (at level 61, right associativity) : run_scope.

(** [a < b], [a > b] with [b] possibly [None]: Python 3 refuses to order an
    [int] against [None]. *)
Definition int_lt (a : Z) (b : option Z) : Run bool :=
  match b with
  | Some b => ret (a <? b)
  | None => raise TypeError
  end.

Definition int_gt (a : Z) (b : option Z) : Run bool :=
  match b with
  | Some b => ret (a >? b)
  | None => raise TypeError
  end.

(** [a == b], [a != b] with [b] possibly [None]: an [int] never equals
    [None]. *)
Definition int_eq (a : Z) (b : option Z) : bool :=
  match b with
  | Some b => a =? b
  | None => false
  end.

Definition int_ne (a : Z) (b : option Z) : bool := negb (int_eq a b).

(** [x or y] on runs: [y] runs only when [x] is false. *)
Definition orR (x y : Run bool) : Run bool :=
  (b <- x ;; if b then ret true else y)%run.

(** [x and y] on runs: [y] runs only when [x] is true. *)
Definition andR (x y : Run bool) : Run bool :=
  (b <- x ;; if b then y else ret false)%run.

(** ** Regular expressions *)

(** The fragment of [re] that [WEEK_RANGE_RE] is written in, and a
    backtracking matcher for it with named groups. *)
Module Re.

Inductive t : Type :=
| Chars (p : ascii -> bool) (lo : nat) (hi : option nat)
    (* a character class repeated, greedy: [..]{lo,hi}; [hi = None] is * *)
| Group (name : string) (r : t)      (* (?P<name>r) *)
| Optional (r : t)                   (* r{0,1}, greedy *)
| Seq (r1 r2 : t)
| EndOfString.                       (* $ *)

(** The groups that took part in the match, with the text each matched. *)
Definition groups : Type := list (string * string).

Definition room (hi : option nat) : bool :=
  match hi with
  | Some O => false
  | _ => true
  end.

(** Greedy repetition: take one more character while the class and the
    upper bound allow it, and fall back to stopping here when the rest of
    the pattern does not match after it. *)
Fixpoint chars {G : Type} (p : ascii -> bool) (lo : nat) (hi : option nat)
    (s : string) (k : string -> option G) : option G :=
  let stop := match lo with O => k s | S _ => None end in
  match s with
  | EmptyString => stop
  | String c s' =>
      if (p c && room hi)%bool then
        match chars p (Nat.pred lo) (option_map Nat.pred hi) s' k with
        | Some g => Some g
        | None => stop
        end
      else stop
  end.

(** The text between the position [s] and the later position [rest]. *)
Definition consumed (s rest : string) : string :=
  substring 0 (String.length s - String.length rest) s.

(** [$] matches at the end of the text and before a line feed that ends it. *)
Definition at_end (s : string) : bool :=
  (Py.is_empty s || String.eqb s (String (ascii_of_nat 10) EmptyString))%bool.

Fixpoint run (r : t) (s : string) (g : groups)
    (k : string -> groups -> option groups) : option groups :=
  match r with
  | Chars p lo hi => chars p lo hi s (fun rest => k rest g)
  | Group name r' =>
      run r' s g (fun rest g' => k rest ((name, consumed s rest) :: g'))
  | Optional r' =>
      match run r' s g k with
      | Some g' => Some g'
      | None => k s g
      end
  | Seq r1 r2 => run r1 s g (fun rest g' => run r2 rest g' k)
  | EndOfString => if at_end s then k s g else None
  end.

(** [r.match(s)]: a match that starts at the beginning of [s]. *)
Definition match_ (r : t) (s : string) : option groups :=
  run r s [] (fun _ g => Some g).

(** [matchObj.groupdict()[name]]: [None] for a group that took no part. *)
Fixpoint groupdict (g : groups) (name : string) : option string :=
  match g with
  | [] => None
  | (n, v) :: g' => if String.eqb n name then Some v else groupdict g' name
  end.

Definition one (c : ascii) : t := Chars (Ascii.eqb c) 1%nat (Some 1%nat).

End Re.

Infix "+++" := Re.Seq (at level 60, right associativity).

(** [WEEK_RANGE_RE]:
    ^[ ]*(?P<startDay>[a-zA-Z]{3}){0,1}[ ]*(?P<startHour>[\d]{1,2}):(?P<startMinute>[\d]{1,2})[ ]*[-][ ]*(?P<endDay>[a-zA-Z]{3}){0,1}[ ]*(?P<endHour>[\d]{1,2}):(?P<endMinute>[\d]{1,2})[ ]*$
    The leading ^ holds of every match that starts at the beginning. *)
Definition WEEK_RANGE_RE : Re.t :=
  let blanks := Re.Chars (Ascii.eqb " ") 0%nat None in
  let day name :=
    Re.Optional (Re.Group name (Re.Chars Py.is_alpha 3%nat (Some 3%nat))) in
  let number name := Re.Group name (Re.Chars Py.is_digit 1%nat (Some 2%nat)) in
  (blanks +++ day "startDay" +++ blanks
   +++ number "startHour" +++ Re.one ":" +++ number "startMinute"
   +++ blanks +++ Re.one "-" +++ blanks
   +++ day "endDay" +++ blanks
   +++ number "endHour" +++ Re.one ":" +++ number "endMinute"
   +++ blanks +++ Re.EndOfString)%string.

(** ** class WeekRange *)

Module WeekRange.

(** The ten comparison methods one of which [__init__] stores in the slot
    [intersects] of the object. *)
Inductive Method : Type :=
| TimeOnlyOuterMinOnly
| TimeOnlyInnerMinOnly
| TimeOnlyOuter
| TimeOnlyInner
| Inner
| InnerSameDay
| InnerSameDaySameHour
| Outer
| OuterSameDay
| OuterSameDaySameHour.

(** The slots of an object, as [__init__] leaves them; [bound] is the slot
    [intersects]. *)
Record t : Type := mk {
  startDay : option Z;
  startHour : Z;
  startMinute : Z;
  endDay : option Z;
  endHour : Z;
  endMinute : Z;
  bound : Method;
  isSetup : bool
}.

Section Methods.

Variable self : t.
Variable datetimeObj : datetime.t.

Local Open Scope run_scope.

Definition _intersectsTimeOnlyOuterMinOnly : Run bool :=
  let minute := datetime.minute datetimeObj in
  if (minute >=? endMinute self) && (minute <? startMinute self)
  then ret false
  else ret true.

Definition _intersectsTimeOnlyInnerMinOnly : Run bool :=
  if negb (datetime.hour datetimeObj =? startHour self) then ret false
  else
    let minute := datetime.minute datetimeObj in
    if (minute <? startMinute self) || (minute >=? endMinute self)
    then ret false
    else ret true.

Definition _intersectsTimeOnlyOuter : Run bool :=
  let '(hour, minute) :=
    (datetime.hour datetimeObj, datetime.minute datetimeObj) in
  if (hour <? startHour self) && (hour >? endHour self) then ret false
  else if hour =? startHour self then
    if minute <? startMinute self then ret false else ret true
  else if hour =? endHour self then
    if minute >=? endMinute self then ret false else ret true
  else ret true.

Definition _intersectsTimeOnlyInner : Run bool :=
  let '(hour, minute) :=
    (datetime.hour datetimeObj, datetime.minute datetimeObj) in
  if hour =? startHour self then
    if minute >=? startMinute self then ret true else ret false
  else if hour =? endHour self then
    if minute <? endMinute self then ret true else ret false
  else if (hour <? startHour self) || (hour >? endHour self) then ret false
  else ret true.

Definition _intersectsInner : Run bool :=
  let '(day, hour, minute) :=
    (datetime.strftime_w datetimeObj, datetime.hour datetimeObj,
     datetime.minute datetimeObj) in
  emit pdb_set_trace ;;;
  c <- orR (int_lt day (startDay self)) (int_gt day (endDay self)) ;;
  if c then ret false
  else if int_eq day (startDay self) then
    if hour >? startHour self then ret true
    else if (hour =? startHour self) && (minute >=? startMinute self)
    then ret true
    else ret false
  else if int_eq day (endDay self) then
    if hour <? endHour self then ret true
    else if (hour =? endHour self) && (minute <? endMinute self)
    then ret true
    else ret false
  else ret true.

Definition _intersectsInnerSameDay : Run bool :=
  let '(day, hour, minute) :=
    (datetime.strftime_w datetimeObj, datetime.hour datetimeObj,
     datetime.minute datetimeObj) in
  if int_ne day (startDay self) then ret false
  else if (hour <? startHour self) || (hour >? endHour self) then ret false
  else if (hour =? startHour self) && (minute >=? startMinute self)
  then ret true
  else if (hour =? endHour self) && (minute <? endMinute self)
  then ret true
  else ret false.

Definition _intersectsInnerSameDaySameHour : Run bool :=
  let '(day, hour, minute) :=
    (datetime.strftime_w datetimeObj, datetime.hour datetimeObj,
     datetime.minute datetimeObj) in
  if int_ne day (startDay self) || negb (hour =? startHour self)
  then ret false
  else if (minute >=? startMinute self) && (minute <? endMinute self)
  then ret true
  else ret false.

Definition _intersectsOuter : Run bool :=
  let '(day, hour, minute) :=
    (datetime.strftime_w datetimeObj, datetime.hour datetimeObj,
     datetime.minute datetimeObj) in
  c <- andR (int_gt day (endDay self)) (int_lt day (startDay self)) ;;
  if c then ret false
  else if int_eq day (startDay self) then
    if hour <? startHour self then ret false
    else if (hour =? startHour self) && (minute <? startMinute self)
    then ret false
    else ret true
  else if int_eq day (endDay self) then
    if hour >? endHour self then ret false
    else if (hour =? endHour self) && (minute >=? endMinute self)
    then ret false
    else ret true
  else ret true.

Definition _intersectsOuterSameDay : Run bool :=
  let '(day, hour, minute) :=
    (datetime.strftime_w datetimeObj, datetime.hour datetimeObj,
     datetime.minute datetimeObj) in
  if int_ne day (startDay self) then ret true
  else if (hour >? startHour self) || (hour <? endHour self) then ret true
  else if hour =? startHour self then
    if minute >=? startMinute self then ret true else ret false
  else if hour =? endHour self then
    if minute <? endMinute self then ret true else ret false
  else ret false.

Definition _intersectsOuterSameDaySameHour : Run bool :=
  let '(day, hour, minute) :=
    (datetime.strftime_w datetimeObj, datetime.hour datetimeObj,
     datetime.minute datetimeObj) in
  if int_ne day (startDay self) || negb (hour =? startHour self)
  then ret true
  else if (minute <? startMinute self) && (minute >=? endMinute self)
  then ret false
  else ret true.

(** [self.intersects(datetimeObj)]: the call of the method in the slot. *)
Definition intersects : Run bool :=
  match bound self with
  | TimeOnlyOuterMinOnly => _intersectsTimeOnlyOuterMinOnly
  | TimeOnlyInnerMinOnly => _intersectsTimeOnlyInnerMinOnly
  | TimeOnlyOuter => _intersectsTimeOnlyOuter
  | TimeOnlyInner => _intersectsTimeOnlyInner
  | Inner => _intersectsInner
  | InnerSameDay => _intersectsInnerSameDay
  | InnerSameDaySameHour => _intersectsInnerSameDaySameHour
  | Outer => _intersectsOuter
  | OuterSameDay => _intersectsOuterSameDay
  | OuterSameDaySameHour => _intersectsOuterSameDaySameHour
  end.

End Methods.

(** The day arguments of the constructor: [None], a [str] or an [int]. *)
Inductive DayArg : Type :=
| DayNone
| DayStr (s : string)
| DayInt (z : Z).

Section Construction.

Variable __weekDayAbbreviations : list string.

Local Open Scope result_scope.

(** The first lines of [__init__], for one of the two days. *)
Definition resolveDay (day : DayArg) : Result (option Z) :=
  match day with
  | DayStr s => d <- dayStrToNumber __weekDayAbbreviations s ;; Ok (Some d)
  | DayNone => Ok None
  | DayInt z => Ok (Some z)
  end.

(** [WeekRange(startDay, startHour, startMinute, endDay, endHour,
    endMinute)]. The hours and minutes are the integers [int(startHour)],
    ..., [int(endMinute)] the constructor stores. [setup m] is the assignment
    of the method [m] to the slot [intersects] followed by
    [self.isSetup = True]. Where the start day is present the end day is
    present too, given or filled in, so the comparison of the start day with
    [None] (a [TypeError]) is not reached. *)
Definition __init__ (startDay : DayArg) (startHour startMinute : Z)
    (endDay : DayArg) (endHour endMinute : Z) : Result t :=
  startDay <- resolveDay startDay ;;
  endDay <- resolveDay endDay ;;
  endDay <-
    match endDay, startDay with
    | None, Some _ =>
        if (endHour >? startHour)
           || ((endHour =? startHour) && (endMinute >? startMinute))
        then Ok startDay
        else Raise (WeekRangeValueError MsgEndDayOmitted)
    | _, _ => Ok endDay
    end ;;
  let setup m :=
    Ok (mk startDay startHour startMinute endDay endHour endMinute m true) in
  match startDay with
  | None =>
      match endDay with
      | Some _ => Raise (WeekRangeValueError MsgDaysBothOrNeither)
      | None =>
          if startHour >? endHour then setup TimeOnlyOuter
          else if startHour =? endHour then
            if startMinute >? endMinute then setup TimeOnlyOuterMinOnly
            else if startMinute =? endMinute
            then Raise (WeekRangeValueError MsgSameTime)
            else setup TimeOnlyInnerMinOnly
          else setup TimeOnlyInner
      end
  | Some sd =>
      match endDay with
      | None => Raise TypeError
      | Some ed =>
          if sd >? ed then setup Outer
          else if sd =? ed then
            if startHour >? endHour then setup OuterSameDay
            else if startHour =? endHour then
              if startMinute >? endMinute then setup OuterSameDaySameHour
              else if startMinute =? endMinute
              then Raise (ValueError MsgSameTime)
              else setup InnerSameDaySameHour
            else setup InnerSameDay
          else setup Inner
      end
  end.

(** [int(v)] for the value of a group: the text of one or two digits when
    the group took part in the match, as the four number groups always do. *)
Definition int_group (v : option string) : Result Z :=
  match v with
  | Some s => Ok (Py.int s)
  | None => Raise TypeError
  end.

Definition day_group (v : option string) : DayArg :=
  match v with
  | Some s => DayStr s
  | None => DayNone
  end.

(** [WeekRange.createFromStr(rangeStr)]: the groups of the match are the
    keyword arguments of the constructor. *)
Definition createFromStr (rangeStr : string) : Result t :=
  match Re.match_ WEEK_RANGE_RE rangeStr with
  | None => Raise (ValueError (MsgFormat rangeStr))
  | Some matchObj =>
      let group := Re.groupdict matchObj in
      startHour <- int_group (group "startHour"%string) ;;
      startMinute <- int_group (group "startMinute"%string) ;;
      endHour <- int_group (group "endHour"%string) ;;
      endMinute <- int_group (group "endMinute"%string) ;;
      __init__ (day_group (group "startDay"%string)) startHour startMinute
               (day_group (group "endDay"%string)) endHour endMinute
  end.

End Construction.

Section Rendering.

Variable __weekDayAbbreviations : list string.

(** [weekDayNames[day]] for a slot: [None] stands for the exception raised
    when the slot holds [None] ([TypeError]) or a number outside the list
    ([IndexError]). *)
Definition dayName (weekDayNames : list string) (day : option Z)
    : option string :=
  match day with
  | Some d => Py.getitem weekDayNames d
  | None => None
  end.

(** [str(self)]; [None] when an exception is raised instead. *)
Definition __str__ (self : t) : option string :=
  let hhmm h m := (Py.zfill 2 (Py.str h) ++ ":" ++ Py.zfill 2 (Py.str m))%string in
  match startDay self with
  | None =>
      Some (hhmm (startHour self) (startMinute self) ++ " - "
            ++ hhmm (endHour self) (endMinute self))%string
  | Some _ =>
      let weekDayNames := getWeekDayAbbreviations __weekDayAbbreviations false in
      match dayName weekDayNames (startDay self),
            dayName weekDayNames (endDay self) with
      | Some sn, Some en =>
          Some (sn ++ " " ++ hhmm (startHour self) (startMinute self) ++ " - "
                ++ en ++ " " ++ hhmm (endHour self) (endMinute self))%string
      | _, _ => None
      end
  end.

End Rendering.

Section SetAttr.

(** The values an attribute can be given, and the assignment of the base
    class, [object.__setattr__(self, attrName, attrValue)]. *)
Variable Value : Type.

Inductive Assignment : Type :=
| Assigned (self' : t)
| AttributeError.

Variable object__setattr__ : t -> string -> Value -> Assignment.

(** [self.<attrName> = attrValue] *)
Definition __setattr__ (self : t) (attrName : string) (attrValue : Value)
    : Assignment :=
  if (String.eqb attrName "isSetup" && negb (isSetup self))%bool
  then object__setattr__ self attrName attrValue
  else if isSetup self then AttributeError
  else object__setattr__ self attrName attrValue.

End SetAttr.

End WeekRange.

(** ** class WeekRanges *)

Module WeekRanges.

Section CreateFromStr.

(** [rangeClass]: the class of the members, and its [createFromStr]. *)
Variable rangeClass : Type.
Variable rangeClass_createFromStr : string -> Result rangeClass.

(** The [for] loop over [rangeStrs]; [ret] is the list built so far. *)
Fixpoint loop (rangeStrs : list string) (ret : list rangeClass)
    : Result (list rangeClass) :=
  match rangeStrs with
  | [] => Ok ret
  | rangeStr :: rangeStrs' =>
      if Py.is_empty rangeStr then loop rangeStrs' ret
      else
        match rangeClass_createFromStr rangeStr with
        | Ok r => loop rangeStrs' (ret ++ [r])
        | Raise e => Raise e
        end
  end.

Definition createFromStr (rangesStr : string) : Result (list rangeClass) :=
  let rangeStrs := map Py.strip (Py.split "," rangesStr) in
  loop rangeStrs [].

End CreateFromStr.

(** [for weekRange in self: if weekRange.intersects(datetimeObj): return
    weekRange]; [None] stands for the [False] returned at the end. *)
Fixpoint intersects (self : list WeekRange.t) (datetimeObj : datetime.t)
    : Run (option WeekRange.t) :=
  match self with
  | [] => ret None
  | weekRange :: rest =>
      (b <- WeekRange.intersects weekRange datetimeObj ;;
       if b : bool then ret (Some weekRange) else intersects rest datetimeObj)%run
  end.

End WeekRanges.

(** * Vocabulary of the properties *)

(** ** What the constructor establishes *)

Module Inv.

Import WeekRange.

(** The slots agree with the method in the slot [intersects]: the days are
    both absent or both present as the method expects, and start and end
    compare as in the branch of [__init__] that selects it. *)
Definition wf (r : t) : Prop :=
  match bound r with
  | TimeOnlyOuter =>
      startDay r = None /\ endDay r = None /\ startHour r > endHour r
  | TimeOnlyOuterMinOnly =>
      startDay r = None /\ endDay r = None /\
      startHour r = endHour r /\ startMinute r > endMinute r
  | TimeOnlyInnerMinOnly =>
      startDay r = None /\ endDay r = None /\
      startHour r = endHour r /\ startMinute r < endMinute r
  | TimeOnlyInner =>
      startDay r = None /\ endDay r = None /\ startHour r < endHour r
  | Outer =>
      exists sd ed, startDay r = Some sd /\ endDay r = Some ed /\ sd > ed
  | OuterSameDay =>
      exists d, startDay r = Some d /\ endDay r = Some d /\
                startHour r > endHour r
  | OuterSameDaySameHour =>
      exists d, startDay r = Some d /\ endDay r = Some d /\
                startHour r = endHour r /\ startMinute r > endMinute r
  | InnerSameDaySameHour =>
      exists d, startDay r = Some d /\ endDay r = Some d /\
                startHour r = endHour r /\ startMinute r < endMinute r
  | InnerSameDay =>
      exists d, startDay r = Some d /\ endDay r = Some d /\
                startHour r < endHour r
  | Inner =>
      exists sd ed, startDay r = Some sd /\ endDay r = Some ed /\ sd < ed
  end.

(** The start lies before the end in the order of day, hour and minute:
    the ranges the documentation calls inner. *)
Definition time_before (r : t) : Prop :=
  startHour r < endHour r \/
  (startHour r = endHour r /\ startMinute r < endMinute r).

Definition start_before_end (r : t) : Prop :=
  match startDay r, endDay r with
  | Some sd, Some ed => sd < ed \/ (sd = ed /\ time_before r)
  | None, None => time_before r
  | _, _ => False
  end.

End Inv.

Section Vocabulary.

Import WeekRange.

(** The day of a boundary instant: the day of the range, or any day [day]
    for a range without days. *)
Definition boundary_day (d : option Z) (day : Z) : Z :=
  match d with
  | Some d => d
  | None => day
  end.

Definition start_instant (r : t) (day : Z) : datetime.t :=
  datetime.mk (boundary_day (startDay r) day) (startHour r) (startMinute r).

Definition end_instant (r : t) (day : Z) : datetime.t :=
  datetime.mk (boundary_day (endDay r) day) (endHour r) (endMinute r).

Definition day_arg (d : option Z) : DayArg :=
  match d with
  | Some d => DayInt d
  | None => DayNone
  end.

(** The range constructed with the end of [r] as start and the start of
    [r] as end. *)
Definition reversed (tbl : list string) (r : t) : Result t :=
  __init__ tbl (day_arg (endDay r)) (endHour r) (endMinute r)
               (day_arg (startDay r)) (startHour r) (startMinute r).

(** The instants [_intersectsInnerSameDay] returns [False] for by falling
    through to its last line: on the day of a range within one day, an
    hour strictly between the start hour and the end hour. *)
Definition between_hours (r : t) (dt : datetime.t) : Prop :=
  startDay r = endDay r /\
  startDay r = Some (datetime.strftime_w dt) /\
  startHour r < datetime.hour dt < endHour r.

End Vocabulary.

(** ** Ranges of the examples *)

Definition mon_1010_1021 : WeekRange.t :=
  WeekRange.mk (Some 1) 10 10 (Some 1) 10 21 WeekRange.InnerSameDaySameHour true.

Definition mon_1021_1010 : WeekRange.t :=
  WeekRange.mk (Some 1) 10 21 (Some 1) 10 10 WeekRange.OuterSameDaySameHour true.

Definition fri_2200_mon_0600 : WeekRange.t :=
  WeekRange.mk (Some 5) 22 0 (Some 1) 6 0 WeekRange.Outer true.

(** ** Construction of a list of ranges, as specified *)

(** The construction as the specification words it, to be compared with the
    loop of [WeekRanges.createFromStr]. *)
Module Spec.

Section CreateFromSpec.

Variable R : Type.
Variable rangeFactory : string -> Result R.

(** "split text on commas, trim whitespace, skip empty segments" *)
Definition segments (text : string) : list string :=
  filter (fun seg => negb (Py.is_empty seg))
         (map Py.strip (Py.split "," text)).

(** "construct one range per segment via rangeFactory, preserve order.
    Fails with whatever error the first failing segment's construction
    raises" *)
Fixpoint construct_each (segs : list string) : Result (list R) :=
  match segs with
  | [] => Ok []
  | seg :: rest =>
      match rangeFactory seg with
      | Raise e => Raise e
      | Ok r =>
          match construct_each rest with
          | Ok rs => Ok (r :: rs)
          | Raise e => Raise e
          end
      end
  end.

Definition createFromSpec (text : string) : Result (list R) :=
  construct_each (segments text).

End CreateFromSpec.

End Spec.

(** ** Membership in a span of the week *)

(** An object some call of the constructor returned. *)
Definition constructed (r : WeekRange.t) : Prop :=
  exists tbl a sh sm b eh em, WeekRange.__init__ tbl a sh sm b eh em = Ok r.

(** What a call of the method in the slot returns, as a boolean. *)
Definition matches (r : WeekRange.t) (dt : datetime.t) : bool :=
  match outcome (WeekRange.intersects r dt) with
  | Ok v => v
  | Raise _ => false
  end.

(** The order of day, hour and minute. *)
Definition lex_lt (a b : Z * Z * Z) : bool :=
  let '(d1, h1, m1) := a in
  let '(d2, h2, m2) := b in
  (d1 <? d2) || ((d1 =? d2) && ((h1 <? h2) || ((h1 =? h2) && (m1 <? m2)))).

Definition lex_le (a b : Z * Z * Z) : bool := negb (lex_lt b a).

Definition day_key (d : option Z) : Z :=
  match d with
  | Some d => d
  | None => 0
  end.

Definition start_key (r : WeekRange.t) : Z * Z * Z :=
  (day_key (WeekRange.startDay r), WeekRange.startHour r,
   WeekRange.startMinute r).

Definition end_key (r : WeekRange.t) : Z * Z * Z :=
  (day_key (WeekRange.endDay r), WeekRange.endHour r, WeekRange.endMinute r).

(** An instant as a range sees it: a range without days reads no day. *)
Definition instant_key (r : WeekRange.t) (dt : datetime.t) : Z * Z * Z :=
  (match WeekRange.startDay r with
   | Some _ => datetime.strftime_w dt
   | None => 0
   end, datetime.hour dt, datetime.minute dt).

(** The span a range stands for, left-inclusive and right-exclusive: from
    start to end when the start comes first, and otherwise from start round
    the end of the week (of the day, for a range without days) to end. *)
Definition in_span (r : WeekRange.t) (dt : datetime.t) : bool :=
  let t := instant_key r dt in
  if lex_lt (start_key r) (end_key r)
  then lex_le (start_key r) t && lex_lt t (end_key r)
  else lex_le (start_key r) t || lex_lt t (end_key r).

(** The instants [_intersectsTimeOnlyOuterMinOnly] returns [False] for
    without looking at the hour: for a range without days that wraps within
    one hour, a minute in [endMinute, startMinute) of another hour. *)
Definition outside_hour (r : WeekRange.t) (dt : datetime.t) : Prop :=
  WeekRange.startDay r = None /\
  WeekRange.startHour r = WeekRange.endHour r /\
  WeekRange.endMinute r <= datetime.minute dt < WeekRange.startMinute r /\
  datetime.hour dt <> WeekRange.startHour r.

(** ** Ranges that can be written and read back *)

(** The entry [d] of the table is an abbreviation of three letters that
    resolves to [d]. *)
Definition abbreviation_ok (tbl : list string) (d : nat) : bool :=
  match nth_error tbl d with
  | Some s =>
      Nat.eqb (String.length s) 3 && Py.all_chars Py.is_alpha s
      && match dayStrToNumber tbl s with
         | Ok i => i =? Z.of_nat d
         | Raise _ => false
         end
  | None => false
  end.

(** The table has seven entries of this kind, as in the C locale. *)
Definition table_ok (tbl : list string) : bool :=
  Nat.eqb (List.length tbl) 7 && forallb (abbreviation_ok tbl) (seq 0 7).

(** Days of the week and numbers of at most two digits in the slots: what
    the pattern of [createFromStr] can read. *)
Definition day_in_week (d : option Z) : Prop :=
  forall x, d = Some x -> 0 <= x <= 6.

Definition writable (r : WeekRange.t) : Prop :=
  day_in_week (WeekRange.startDay r) /\ day_in_week (WeekRange.endDay r) /\
  0 <= WeekRange.startHour r <= 99 /\ 0 <= WeekRange.startMinute r <= 99 /\
  0 <= WeekRange.endHour r <= 99 /\ 0 <= WeekRange.endMinute r <= 99.

(** ** What a pattern denotes *)

Definition within (hi : option nat) (n : nat) : Prop :=
  match hi with
  | Some h => (n <= h)%nat
  | None => True
  end.

(** [Matches r s rest gs]: the pattern [r] matches the text between the
    position [s] and the later position [rest], and [gs] are the groups of
    [r] that took part, the last one first. *)
Inductive Matches : Re.t -> string -> string -> Re.groups -> Prop :=
| M_chars p lo hi w rest :
    Py.all_chars p w = true -> (lo <= String.length w)%nat ->
    within hi (String.length w) ->
    Matches (Re.Chars p lo hi) (w ++ rest) rest []
| M_group name r s rest gs :
    Matches r s rest gs ->
    Matches (Re.Group name r) s rest ((name, Re.consumed s rest) :: gs)
| M_some r s rest gs :
    Matches r s rest gs -> Matches (Re.Optional r) s rest gs
| M_none r s :
    Matches (Re.Optional r) s s []
| M_seq r1 r2 s mid rest gs1 gs2 :
    Matches r1 s mid gs1 -> Matches r2 mid rest gs2 ->
    Matches (Re.Seq r1 r2) s rest (gs2 ++ gs1)
| M_end s :
    Re.at_end s = true -> Matches Re.EndOfString s s [].

(** * Properties *)

(** ** Runs of the code on concrete inputs *)

Example createFromStr_fri_mon :
  WeekRange.createFromStr english "Fri 22:00 - Mon 06:00" =
  Ok (WeekRange.mk (Some 5) 22 0 (Some 1) 6 0 WeekRange.Outer true).
Proof. vm_compute. reflexivity. Qed.

Example createFromStr_autofill :
  WeekRange.createFromStr english " mon 9:5-18:00 " =
  Ok (WeekRange.mk (Some 1) 9 5 (Some 1) 18 0 WeekRange.InnerSameDay true).
Proof. vm_compute. reflexivity. Qed.

Example createFromStr_three_digits :
  WeekRange.createFromStr english "123:00 - 13:00" =
  Raise (ValueError (MsgFormat "123:00 - 13:00")).
Proof. vm_compute. reflexivity. Qed.

Example createFromStr_four_letters :
  WeekRange.createFromStr english "Mond 12:00 - 13:00" =
  Raise (ValueError (MsgFormat "Mond 12:00 - 13:00")).
Proof. vm_compute. reflexivity. Qed.

Example createFromStr_unknown_day :
  WeekRange.createFromStr english "Xyz 12:00 - 13:00" =
  Raise (WeekRangeValueError (MsgInvalidDay "xyz")).
Proof. vm_compute. reflexivity. Qed.

(** [$] accepts a line feed that ends the text; the blanks between a day
    and its hour are optional. *)
Example createFromStr_line_feed :
  WeekRange.createFromStr english
    (String.append "Sat23:59 -  Sun 0:1" (String (ascii_of_nat 10) "")) =
  Ok (WeekRange.mk (Some 6) 23 59 (Some 0) 0 1 WeekRange.Outer true).
Proof. vm_compute. reflexivity. Qed.

Example createFromStr_tab :
  WeekRange.createFromStr english
    (String.append "12:00 -" (String (ascii_of_nat 9) "13:00")) =
  Raise (ValueError
           (MsgFormat (String.append "12:00 -" (String (ascii_of_nat 9) "13:00")))).
Proof. vm_compute. reflexivity. Qed.

(** "Mon 09:00 - 18:00" and its reversal at Monday 12:00, an hour between
    the start hour and the end hour: neither matches. *)
Example reversed_between_hours :
  reversed english (WeekRange.mk (Some 1) 9 0 (Some 1) 18 0
                      WeekRange.InnerSameDay true) =
    Ok (WeekRange.mk (Some 1) 18 0 (Some 1) 9 0 WeekRange.OuterSameDay true) /\
  WeekRange.intersects
    (WeekRange.mk (Some 1) 9 0 (Some 1) 18 0 WeekRange.InnerSameDay true)
    (datetime.mk 1 12 0) = ret false /\
  WeekRange.intersects
    (WeekRange.mk (Some 1) 18 0 (Some 1) 9 0 WeekRange.OuterSameDay true)
    (datetime.mk 1 12 0) = ret false.
Proof. repeat split. Qed.

Example dayStrToNumber_monday : dayStrToNumber english "MONDAY" = Ok 1.
Proof. reflexivity. Qed.

Example dayStrToNumber_06 : dayStrToNumber english "06" = Ok 6.
Proof. reflexivity. Qed.

Example strip_split :
  map Py.strip (Py.split "," " a , ,b,"%string) = ["a"; ""; "b"; ""]%string.
Proof. reflexivity. Qed.

(** ** Comparisons *)

Ltac zprop :=
  repeat match goal with
  | H : context [Z.gtb ?a ?b] |- _ => rewrite (Z.gtb_ltb a b) in H
  | H : context [Z.geb ?a ?b] |- _ => rewrite (Z.geb_leb a b) in H
  | H : Z.ltb _ _ = true |- _ => apply Z.ltb_lt in H
  | H : Z.ltb _ _ = false |- _ => apply Z.ltb_ge in H
  | H : Z.leb _ _ = true |- _ => apply Z.leb_le in H
  | H : Z.leb _ _ = false |- _ => apply Z.leb_gt in H
  | H : Z.eqb _ _ = true |- _ => apply Z.eqb_eq in H
  | H : Z.eqb _ _ = false |- _ => apply Z.eqb_neq in H
  end.

(** Split the goal on every integer comparison it tests, dropping the
    combinations that contradict the hypotheses. *)
Ltac cmp_cases :=
  repeat match goal with
  | |- context [Z.gtb ?a ?b] => rewrite (Z.gtb_ltb a b)
  | |- context [Z.geb ?a ?b] => rewrite (Z.geb_leb a b)
  | |- context [Z.ltb ?a ?b] => destruct (Z.ltb_spec a b); try lia
  | |- context [Z.leb ?a ?b] => destruct (Z.leb_spec a b); try lia
  | |- context [Z.eqb ?a ?b] => destruct (Z.eqb_spec a b); try lia
  end.

(** The same, computing between the splits. *)
Ltac cmp_run :=
  repeat (progress (cmp_cases; cbn -[Z.gtb Z.geb Z.ltb Z.leb Z.eqb])).

(** ** The invariant of constructed objects *)

Section Constructed.

Import WeekRange Inv.

Variable tbl : list string.

(** The slots of a constructed object are the resolved arguments. *)
Lemma init_slots a sh sm b eh em r :
  __init__ tbl a sh sm b eh em = Ok r ->
  resolveDay tbl a = Ok (startDay r) /\
  startHour r = sh /\ startMinute r = sm /\
  endHour r = eh /\ endMinute r = em /\ isSetup r = true.
Proof.
  unfold __init__.
  destruct (resolveDay tbl a) as [sd|]; [|discriminate].
  destruct (resolveDay tbl b) as [ed|]; [|discriminate].
  cbn [bindR].
  destruct sd as [sd|], ed as [ed|]; cbn [bindR];
    repeat match goal with
    | |- context [if ?c then _ else _] => destruct c; cbn [bindR]
    end;
    intros H; inversion H; subst; cbn; auto 10; discriminate.
Qed.

(** [__init__] only returns objects whose slots agree with the method. *)
Lemma init_wf a sh sm b eh em r :
  __init__ tbl a sh sm b eh em = Ok r -> wf r.
Proof.
  unfold __init__.
  destruct (resolveDay tbl a) as [sd|]; [|discriminate].
  destruct (resolveDay tbl b) as [ed|]; [|discriminate].
  cbn [bindR].
  destruct sd as [sd|], ed as [ed|]; cbn [bindR];
    repeat match goal with
    | |- context [if ?c then _ else _] =>
        let E := fresh "E" in destruct c eqn:E; cbn [bindR]
    end;
    intros H; inversion H; subst; clear H; unfold wf; cbn;
    repeat match goal with
    | H : orb _ _ = _ |- _ =>
        first [apply orb_true_iff in H | apply orb_false_iff in H]
    | H : andb _ _ = _ |- _ =>
        first [apply andb_true_iff in H | apply andb_false_iff in H]
    | H : _ /\ _ |- _ => destruct H
    end;
    zprop; subst;
    repeat match goal with
    | |- exists _, _ => eexists
    | |- _ /\ _ => split
    end;
    try reflexivity; lia.
Qed.

End Constructed.

(** ** Runs of the comparison methods *)

Ltac split_hyps :=
  repeat match goal with
  | H : exists _, _ |- _ => destruct H
  | H : _ /\ _ |- _ => destruct H
  end.

(** Name the slots of a range [r] whose invariant is [H], one goal per
    method. *)
Ltac open_range r H :=
  let m := fresh "m" in
  destruct r as [? ? ? ? ? ? m ?];
  unfold Inv.wf in H; cbn in H;
  destruct m; split_hyps; subst.

Ltac unfold_methods :=
  unfold WeekRange.intersects,
    WeekRange._intersectsTimeOnlyOuterMinOnly,
    WeekRange._intersectsTimeOnlyInnerMinOnly,
    WeekRange._intersectsTimeOnlyOuter, WeekRange._intersectsTimeOnlyInner,
    WeekRange._intersectsInner, WeekRange._intersectsInnerSameDay,
    WeekRange._intersectsInnerSameDaySameHour, WeekRange._intersectsOuter,
    WeekRange._intersectsOuterSameDay,
    WeekRange._intersectsOuterSameDaySameHour,
    orR, andR, int_lt, int_gt, int_ne, int_eq;
  cbn [WeekRange.bound WeekRange.startDay WeekRange.startHour
       WeekRange.startMinute WeekRange.endDay WeekRange.endHour
       WeekRange.endMinute datetime.strftime_w datetime.hour datetime.minute].

(** Read the slots of a record that is spelled out. *)
Ltac slots :=
  cbn [WeekRange.bound WeekRange.startDay WeekRange.startHour
       WeekRange.startMinute WeekRange.endDay WeekRange.endHour
       WeekRange.endMinute WeekRange.isSetup] in *.

Ltac same_some :=
  repeat match goal with
  | H : Some _ = Some _ |- _ => inversion H; clear H
  end.

(** Follow [__init__] on resolved days down the branch the hypotheses
    select. *)
Ltac init_branch :=
  unfold WeekRange.__init__;
  cbn -[Z.gtb Z.geb Z.ltb Z.leb Z.eqb];
  cmp_cases; cbn [orb andb bindR]; try reflexivity.

Section Runs.

Import WeekRange Inv.

(** A method never fails on an object whose slots agree with it: the
    ordering of a day against [None] is not reached. *)
Lemma intersects_returns r dt :
  wf r -> exists b, outcome (intersects r dt) = Ok b.
Proof.
  intros H. open_range r H; unfold_methods; cmp_cases; cbn; eauto.
Qed.

(** The events of a run: the breakpoint, in [_intersectsInner] only. *)
Lemma intersects_events r dt :
  wf r ->
  events (intersects r dt) =
  match bound r with
  | Inner => [pdb_set_trace]
  | _ => []
  end.
Proof.
  intros H. open_range r H; unfold_methods; cmp_cases; reflexivity.
Qed.

End Runs.

(** ** Boundaries of inner ranges *)

Section Boundaries.

Import WeekRange Inv.

(** C5. Every constructed range whose start lies before its end (an inner
    range, with or without days) matches the instant at its start boundary
    and does not match the instant at its end boundary: the method in its
    slot returns [True] at (startDay, startHour, startMinute) and [False]
    at (endDay, endHour, endMinute), on any day when the range has no
    days. (For a range over several days this is what the call returns
    after the breakpoint of [_intersectsInner].) *)
Theorem boundary_inclusivity tbl a sh sm b eh em r day :
  __init__ tbl a sh sm b eh em = Ok r ->
  start_before_end r ->
  outcome (intersects r (start_instant r day)) = Ok true /\
  outcome (intersects r (end_instant r day)) = Ok false.
Proof.
  intros Hinit Hlt. apply init_wf in Hinit.
  unfold start_instant, end_instant, boundary_day.
  open_range r Hinit; unfold start_before_end, time_before in Hlt;
    cbn in Hlt; try lia;
    unfold_methods; split; cmp_cases; reflexivity.
Qed.

Lemma boundary_inclusivity_witness :
  outcome (intersects (mk (Some 1) 9 30 (Some 3) 17 0 Inner true)
                      (datetime.mk 1 9 30)) = Ok true /\
  outcome (intersects (mk (Some 1) 9 30 (Some 3) 17 0 Inner true)
                      (datetime.mk 3 17 0)) = Ok false.
Proof.
  refine (boundary_inclusivity english (DayInt 1) 9 30 (DayInt 3) 17 0
            (mk (Some 1) 9 30 (Some 3) 17 0 Inner true) 0 _ _).
  - reflexivity.
  - cbn. lia.
Defined.

End Boundaries.

(** ** Inside a range *)

Section Inside.

Import WeekRange Inv.

(** C1. What the code does where the claim expects a match: for a
    constructed range with equal days and [startHour < endHour] (the method
    [_intersectsInnerSameDay]), an instant on that day whose hour lies
    strictly between the two hours is rejected, whatever its minute. The
    method accepts the start hour and the end hour only and ends with
    [return False]. *)
Theorem inner_same_day_interior_rejected tbl a sh sm b eh em r d dt :
  __init__ tbl a sh sm b eh em = Ok r ->
  startDay r = Some d -> endDay r = Some d ->
  startHour r < endHour r ->
  datetime.strftime_w dt = d ->
  startHour r < datetime.hour dt < endHour r ->
  bound r = InnerSameDay /\ intersects r dt = ret false.
Proof.
  intros Hinit Hs He Hh Hd Hin. apply init_wf in Hinit.
  open_range r Hinit; slots; try discriminate; same_some; subst; try lia.
  split; [reflexivity|].
  unfold_methods; cmp_cases; reflexivity.
Qed.

(** "Mon 09:00 - 18:00" at Monday 12:00. *)
Lemma inner_same_day_interior_rejected_witness :
  datetime.valid (datetime.mk 1 12 0) /\
  bound (mk (Some 1) 9 0 (Some 1) 18 0 InnerSameDay true) = InnerSameDay /\
  intersects (mk (Some 1) 9 0 (Some 1) 18 0 InnerSameDay true)
             (datetime.mk 1 12 0) = ret false.
Proof.
  split; [unfold datetime.valid; cbn; lia|].
  refine (inner_same_day_interior_rejected english (DayStr "Mon") 9 0
            DayNone 18 0 (mk (Some 1) 9 0 (Some 1) 18 0 InnerSameDay true)
            1 (datetime.mk 1 12 0) _ _ _ _ _ _);
    cbn; try reflexivity; lia.
Defined.

(** C2. What the code does where the claim expects a match: for a
    constructed range without days, with equal hours and
    [startMinute > endMinute] (the method
    [_intersectsTimeOnlyOuterMinOnly]), an instant whose minute lies in
    [endMinute, startMinute) is rejected in every hour, also in an hour
    other than [startHour]: the method never reads the hour. *)
Theorem time_only_outer_same_hour_ignores_hour tbl a sh sm b eh em r dt :
  __init__ tbl a sh sm b eh em = Ok r ->
  startDay r = None -> endDay r = None ->
  startHour r = endHour r -> startMinute r > endMinute r ->
  datetime.hour dt <> startHour r ->
  endMinute r <= datetime.minute dt < startMinute r ->
  bound r = TimeOnlyOuterMinOnly /\ intersects r dt = ret false.
Proof.
  intros Hinit Hs He Hh Hm Hne Hin. apply init_wf in Hinit.
  open_range r Hinit; slots; try discriminate; try lia.
  split; [reflexivity|].
  unfold_methods; cmp_cases; reflexivity.
Qed.

(** "12:50 - 12:10" at 15:30 on a Tuesday. *)
Lemma time_only_outer_same_hour_ignores_hour_witness :
  datetime.valid (datetime.mk 2 15 30) /\
  bound (mk None 12 50 None 12 10 TimeOnlyOuterMinOnly true) =
    TimeOnlyOuterMinOnly /\
  intersects (mk None 12 50 None 12 10 TimeOnlyOuterMinOnly true)
             (datetime.mk 2 15 30) = ret false.
Proof.
  split; [unfold datetime.valid; cbn; lia|].
  refine (time_only_outer_same_hour_ignores_hour english DayNone 12 50
            DayNone 12 10 (mk None 12 50 None 12 10 TimeOnlyOuterMinOnly true)
            (datetime.mk 2 15 30) _ _ _ _ _ _ _);
    cbn; try reflexivity; lia.
Defined.

(** C9. For every constructed range and every instant the method in the
    slot returns a boolean, and it performs no event unless the range is
    day-bound with [startDay < endDay]; for those ranges (the method
    [_intersectsInner]) every call performs [pdb.set_trace()], the
    breakpoint of the interactive debugger, before it compares anything. *)
Theorem intersects_breakpoint tbl a sh sm b eh em r dt :
  __init__ tbl a sh sm b eh em = Ok r ->
  (exists v, outcome (intersects r dt) = Ok v) /\
  ((exists sd ed, startDay r = Some sd /\ endDay r = Some ed /\ sd < ed) ->
   events (intersects r dt) = [pdb_set_trace]) /\
  (~ (exists sd ed, startDay r = Some sd /\ endDay r = Some ed /\ sd < ed) ->
   events (intersects r dt) = []).
Proof.
  intros Hinit. apply init_wf in Hinit.
  split; [now apply intersects_returns|].
  rewrite (intersects_events r dt Hinit).
  split; intros H.
  - destruct H as (sd & ed & Hs & He & Hlt).
    open_range r Hinit; slots; try discriminate; same_some; subst;
      try lia; reflexivity.
  - open_range r Hinit; slots; try reflexivity.
    exfalso. apply H. eauto.
Qed.

(** "Mon 09:00 - Wed 17:00" at Tuesday 12:00. *)
Lemma intersects_breakpoint_witness :
  datetime.valid (datetime.mk 2 12 0) /\
  WeekRange.createFromStr english "Mon 09:00 - Wed 17:00" =
    Ok (mk (Some 1) 9 0 (Some 3) 17 0 Inner true) /\
  intersects (mk (Some 1) 9 0 (Some 3) 17 0 Inner true) (datetime.mk 2 12 0) =
    mkRun [pdb_set_trace] (Ok true) /\
  events (intersects (mk (Some 1) 9 0 (Some 3) 17 0 Inner true)
                     (datetime.mk 2 12 0)) = [pdb_set_trace].
Proof.
  split; [unfold datetime.valid; cbn; lia|].
  split; [vm_compute; reflexivity|].
  split; [reflexivity|].
  refine (proj1 (proj2 (intersects_breakpoint english (DayInt 1) 9 0
            (DayInt 3) 17 0 (mk (Some 1) 9 0 (Some 3) 17 0 Inner true)
            (datetime.mk 2 12 0) _)) _).
  - reflexivity.
  - exists 1, 3. cbn. intuition lia.
Defined.

End Inside.

(** ** A range and its reversal *)

Section Reversal.

Import WeekRange Inv.

Variable tbl : list string.

(** C3, as amended. For every constructed day-bound range [r] whose start
    lies before its end, the reversed range is constructed too, and at
    every instant, the two boundary instants included, it returns the
    negation of what [r] returns: at the start of [r] the range matches
    and its reversal does not, at the end of [r] the range does not match
    and its reversal does. Nothing is said of a range within one day at the
    hours strictly between its start hour and its end hour. *)
Theorem reversed_is_complement a sh sm b eh em r :
  __init__ tbl a sh sm b eh em = Ok r ->
  startDay r <> None ->
  start_before_end r ->
  exists r',
    reversed tbl r = Ok r' /\
    (forall dt, ~ between_hours r dt ->
       exists v, outcome (intersects r dt) = Ok v /\
                 outcome (intersects r' dt) = Ok (negb v)) /\
    (forall day,
       outcome (intersects r (start_instant r day)) = Ok true /\
       outcome (intersects r' (start_instant r day)) = Ok false /\
       outcome (intersects r (end_instant r day)) = Ok false /\
       outcome (intersects r' (end_instant r day)) = Ok true).
Proof.
  intros Hinit Hday Hlt. apply init_wf in Hinit.
  unfold reversed, between_hours, start_instant, end_instant, boundary_day.
  open_range r Hinit; unfold start_before_end, time_before in Hlt;
    slots; try congruence; try lia; clear Hday.
  - (* _intersectsInner, reversed into _intersectsOuter *)
    eexists. split; [init_branch|]. split.
    + intros dt _. unfold_methods. cmp_cases; cbn; eauto.
    + intros _. unfold_methods. repeat split; cmp_cases; reflexivity.
  - (* _intersectsInnerSameDay, reversed into _intersectsOuterSameDay *)
    eexists. split; [init_branch|]. split.
    + intros dt Hout. unfold_methods.
      cmp_cases; cbn; eauto;
        exfalso; apply Hout; repeat split; try lia; f_equal; lia.
    + intros _. unfold_methods. repeat split; cmp_cases; reflexivity.
  - (* _intersectsInnerSameDaySameHour, reversed likewise *)
    eexists. split; [init_branch|]. split.
    + intros dt _. unfold_methods. cmp_cases; cbn; eauto.
    + intros _. unfold_methods. repeat split; cmp_cases; reflexivity.
Qed.

End Reversal.

Section ReversalExamples.

Import WeekRange Inv.

Lemma reversed_is_complement_witness :
  exists r',
    reversed english mon_1010_1021 = Ok r' /\
    (forall dt, ~ between_hours mon_1010_1021 dt ->
       exists v, outcome (intersects mon_1010_1021 dt) = Ok v /\
                 outcome (intersects r' dt) = Ok (negb v)) /\
    (forall day,
       outcome (intersects mon_1010_1021 (start_instant mon_1010_1021 day))
         = Ok true /\
       outcome (intersects r' (start_instant mon_1010_1021 day)) = Ok false /\
       outcome (intersects mon_1010_1021 (end_instant mon_1010_1021 day))
         = Ok false /\
       outcome (intersects r' (end_instant mon_1010_1021 day)) = Ok true).
Proof.
  refine (reversed_is_complement english (DayStr "Mon") 10 10 (DayInt 1) 10 21
            mon_1010_1021 _ _ _).
  - reflexivity.
  - discriminate.
  - cbn. unfold time_before. cbn. lia.
Defined.

(** C3, as stated, fails at the boundary instants. "Mon 10:10 - Mon 10:21"
    and its reversal "Mon 10:21 - Mon 10:10" at Monday 10:10 and at Monday
    10:21: at each of the two boundary instants the reversal returns the
    plain negation of what the range returns. *)
Lemma reversed_negates_at_boundaries :
  __init__ english (DayInt 1) 10 10 (DayInt 1) 10 21 = Ok mon_1010_1021 /\
  reversed english mon_1010_1021 = Ok mon_1021_1010 /\
  intersects mon_1010_1021 (datetime.mk 1 10 10) = ret true /\
  intersects mon_1021_1010 (datetime.mk 1 10 10) = ret (negb true) /\
  intersects mon_1010_1021 (datetime.mk 1 10 21) = ret false /\
  intersects mon_1021_1010 (datetime.mk 1 10 21) = ret (negb false).
Proof. repeat split. Qed.

End ReversalExamples.

(** ** Errors of the constructor *)

Section ConstructionErrors.

Import WeekRange Inv.

Variable tbl : list string.

(** C4. What the code does for a range of length zero. Without days, and
    with a start day and no end day, the constructor raises
    [WeekRangeValueError]; with the same day on both sides it raises the
    builtin [ValueError], which is not a [WeekRangeValueError]. *)
Theorem zero_length_day_bound_raises_builtin a b d h m :
  resolveDay tbl a = Ok (Some d) ->
  resolveDay tbl b = Ok (Some d) ->
  __init__ tbl a h m b h m = Raise (ValueError MsgSameTime) /\
  is_WeekRangeValueError (ValueError MsgSameTime) = false /\
  __init__ tbl DayNone h m DayNone h m =
    Raise (WeekRangeValueError MsgSameTime) /\
  __init__ tbl a h m DayNone h m =
    Raise (WeekRangeValueError MsgEndDayOmitted).
Proof.
  intros Ha Hb. unfold __init__. rewrite Ha, Hb. cbn [bindR resolveDay].
  rewrite !Z.gtb_ltb, !Z.ltb_irrefl, !Z.eqb_refl. cbn. auto.
Qed.

(** C7. With a start day and no end day the constructor succeeds exactly
    when the end time of day is strictly after the start time of day, and
    then the end day of the object is the start day; otherwise it raises
    [WeekRangeValueError]. With an end day and no start day it raises
    [WeekRangeValueError] at all times. *)
Theorem one_sided_days a d b e sh sm eh em :
  resolveDay tbl a = Ok (Some d) ->
  resolveDay tbl b = Ok (Some e) ->
  ((sh < eh \/ (sh = eh /\ sm < em)) ->
   exists r, __init__ tbl a sh sm DayNone eh em = Ok r /\
             startDay r = Some d /\ endDay r = Some d) /\
  (~ (sh < eh \/ (sh = eh /\ sm < em)) ->
   __init__ tbl a sh sm DayNone eh em =
     Raise (WeekRangeValueError MsgEndDayOmitted)) /\
  __init__ tbl DayNone sh sm b eh em =
    Raise (WeekRangeValueError MsgDaysBothOrNeither).
Proof.
  intros Ha Hb. unfold __init__. rewrite Ha, Hb. cbn [bindR resolveDay].
  split; [|split].
  - intros Hlt. cmp_run; eauto.
  - intros Hge. cmp_run; try reflexivity; exfalso; apply Hge; lia.
  - reflexivity.
Qed.

End ConstructionErrors.

Section ConstructionWitnesses.

Import WeekRange Inv.

(** [WeekRange(1, 10, 0, 1, 10, 0)] *)
Lemma zero_length_day_bound_raises_builtin_witness :
  __init__ english (DayInt 1) 10 0 (DayInt 1) 10 0 =
    Raise (ValueError MsgSameTime) /\
  is_WeekRangeValueError (ValueError MsgSameTime) = false /\
  __init__ english DayNone 10 0 DayNone 10 0 =
    Raise (WeekRangeValueError MsgSameTime) /\
  __init__ english (DayInt 1) 10 0 DayNone 10 0 =
    Raise (WeekRangeValueError MsgEndDayOmitted).
Proof.
  refine (zero_length_day_bound_raises_builtin english (DayInt 1) (DayInt 1)
            1 10 0 _ _); reflexivity.
Defined.

(** Start "Mon" and 12:00, end 18:00 or 06:00; end "Tue" without a start
    day. *)
Lemma one_sided_days_witness :
  (exists r, __init__ english (DayStr "Mon") 12 0 DayNone 18 0 = Ok r /\
             startDay r = Some 1 /\ endDay r = Some 1) /\
  __init__ english (DayStr "Mon") 18 0 DayNone 12 0 =
    Raise (WeekRangeValueError MsgEndDayOmitted) /\
  __init__ english DayNone 12 0 (DayStr "Tue") 18 0 =
    Raise (WeekRangeValueError MsgDaysBothOrNeither).
Proof.
  split; [|split].
  - refine (proj1 (one_sided_days english (DayStr "Mon") 1 (DayStr "Tue") 2
                     12 0 18 0 _ _) _); [reflexivity | reflexivity | lia].
  - refine (proj1 (proj2 (one_sided_days english (DayStr "Mon") 1
                     (DayStr "Tue") 2 18 0 12 0 _ _)) _);
      [reflexivity | reflexivity | lia].
  - refine (proj2 (proj2 (one_sided_days english (DayStr "Mon") 1
                     (DayStr "Tue") 2 12 0 18 0 _ _)));
      reflexivity.
Defined.

End ConstructionWitnesses.

(** ** Days given as integers and as digit strings *)

Section DayValidation.

Import WeekRange Inv.

Lemma int_digits_nonneg s acc :
  Py.all_chars Py.is_digit s = true -> 0 <= acc -> 0 <= Py.int_digits acc s.
Proof.
  revert acc. induction s as [|c s IH]; intros acc Hd Hacc;
    cbn [Py.all_chars Py.int_digits] in *.
  - exact Hacc.
  - apply andb_true_iff in Hd. destruct Hd as [Hc Hs].
    apply IH; [exact Hs|].
    unfold Py.is_digit, Py.between in Hc.
    apply andb_true_iff in Hc. destruct Hc as [Hlo _].
    apply Nat.leb_le in Hlo. lia.
Qed.

Lemma int_nonneg s : Py.isdigit s = true -> 0 <= Py.int s.
Proof.
  unfold Py.isdigit, Py.int. intros H.
  apply andb_true_iff in H. destruct H as [_ H].
  apply int_digits_nonneg; [exact H | lia].
Qed.

Variable tbl : list string.

(** A digit string is resolved to its value when that is below 7 and
    refused otherwise. *)
Lemma dayStrToNumber_digits s :
  Py.isdigit s = true ->
  dayStrToNumber tbl s =
  if Py.int s >=? 7 then Raise (WeekRangeValueError (MsgInvalidDay s))
  else Ok (Py.int s).
Proof. intros H. unfold dayStrToNumber. rewrite H. reflexivity. Qed.

(** C10. The constructor checks the range of a day only when the day is a
    string. With integer days of which one lies outside 0..6 it raises
    nothing and returns an object holding these days (unless start and end
    coincide, the zero-length range); with the same values written as
    digit strings it raises [WeekRangeValueError] with the invalid-day
    message for one of the two strings. *)
Theorem day_range_checked_for_strings_only d1 d2 sh sm eh em :
  (d1 < 0 \/ 6 < d1) \/ (d2 < 0 \/ 6 < d2) ->
  ~ (d1 = d2 /\ sh = eh /\ sm = em) ->
  (exists r,
     __init__ tbl (DayInt d1) sh sm (DayInt d2) eh em = Ok r /\
     startDay r = Some d1 /\ endDay r = Some d2) /\
  (forall s1 s2,
     Py.isdigit s1 = true -> Py.isdigit s2 = true ->
     Py.int s1 = d1 -> Py.int s2 = d2 ->
     exists s,
       (s = s1 \/ s = s2) /\
       __init__ tbl (DayStr s1) sh sm (DayStr s2) eh em =
         Raise (WeekRangeValueError (MsgInvalidDay s))).
Proof.
  intros Hout Hne. split.
  - unfold __init__. cbn [resolveDay bindR].
    cmp_run; eauto; exfalso; apply Hne; lia.
  - intros s1 s2 H1 H2 E1 E2.
    pose proof (int_nonneg s1 H1). pose proof (int_nonneg s2 H2).
    unfold __init__. cbn [resolveDay].
    rewrite (dayStrToNumber_digits s1 H1), (dayStrToNumber_digits s2 H2).
    rewrite E1, E2.
    destruct (Z.geb_spec d1 7); cbn [bindR].
    + exists s1. auto.
    + destruct (Z.geb_spec d2 7); cbn [bindR].
      * exists s2. auto.
      * lia.
Qed.

End DayValidation.

Section DayValidationWitness.

Import WeekRange Inv.

(** [WeekRange(9, 10, 0, 9, 12, 0)] and [WeekRange("9", 10, 0, "9", 12, 0)] *)
Lemma day_range_checked_for_strings_only_witness :
  __init__ english (DayInt 9) 10 0 (DayInt 9) 12 0 =
    Ok (mk (Some 9) 10 0 (Some 9) 12 0 InnerSameDay true) /\
  __init__ english (DayStr "9") 10 0 (DayStr "9") 12 0 =
    Raise (WeekRangeValueError (MsgInvalidDay "9")) /\
  ((exists r,
     __init__ english (DayInt 9) 10 0 (DayInt 9) 12 0 = Ok r /\
     startDay r = Some 9 /\ endDay r = Some 9) /\
   (forall s1 s2,
     Py.isdigit s1 = true -> Py.isdigit s2 = true ->
     Py.int s1 = 9 -> Py.int s2 = 9 ->
     exists s,
       (s = s1 \/ s = s2) /\
       __init__ english (DayStr s1) 10 0 (DayStr s2) 12 0 =
         Raise (WeekRangeValueError (MsgInvalidDay s)))).
Proof.
  split; [reflexivity|]. split; [reflexivity|].
  refine (day_range_checked_for_strings_only english 9 9 10 0 12 0 _ _); lia.
Defined.

End DayValidationWitness.

(** ** The scenario "Fri 22:00 - Mon 06:00" *)

(** C6. The text "Fri 22:00 - Mon 06:00" is parsed, in a locale with the
    English abbreviations, into an outer range with start day 5 and end day
    1; it matches Saturday 03:00, does not match Wednesday 12:00, does not
    match Monday 06:00 (its end) and matches Friday 22:00 (its start). *)
Theorem fri_to_mon_scenario :
  WeekRange.createFromStr english "Fri 22:00 - Mon 06:00" =
    Ok fri_2200_mon_0600 /\
  WeekRange.startDay fri_2200_mon_0600 = Some 5 /\
  WeekRange.endDay fri_2200_mon_0600 = Some 1 /\
  WeekRange.bound fri_2200_mon_0600 = WeekRange.Outer /\
  WeekRange.intersects fri_2200_mon_0600 (datetime.mk 6 3 0) = ret true /\
  WeekRange.intersects fri_2200_mon_0600 (datetime.mk 3 12 0) = ret false /\
  WeekRange.intersects fri_2200_mon_0600 (datetime.mk 1 6 0) = ret false /\
  WeekRange.intersects fri_2200_mon_0600 (datetime.mk 5 22 0) = ret true.
Proof.
  split; [vm_compute; reflexivity|]. repeat split.
Qed.

(** ** Construction of a list of ranges from text *)


Section BulkConstruction.

Variable R : Type.
Variable factory : string -> Result R.

(** The loop, started with [ret] already built, appends the ranges of the
    non-empty segments, or stops at the first error. *)
Lemma loop_construct_each (rangeStrs : list string) (ret : list R) :
  WeekRanges.loop R factory rangeStrs ret =
  match Spec.construct_each R factory
          (filter (fun seg => negb (Py.is_empty seg)) rangeStrs) with
  | Ok rs => Ok (ret ++ rs)
  | Raise e => Raise e
  end.
Proof.
  revert ret. induction rangeStrs as [|seg rest IH]; intros ret; cbn.
  - now rewrite app_nil_r.
  - destruct (Py.is_empty seg); cbn; [apply IH|].
    destruct (factory seg) as [r|e]; [|reflexivity].
    rewrite IH.
    destruct (Spec.construct_each R factory _); [|reflexivity].
    now rewrite <- app_assoc.
Qed.

Lemma construct_each_ok segs rs :
  Spec.construct_each R factory segs = Ok rs ->
  Forall2 (fun seg r => factory seg = Ok r) segs rs.
Proof.
  revert rs. induction segs as [|seg rest IH]; intros rs; cbn.
  - intros H. inversion H. constructor.
  - destruct (factory seg) as [r|e] eqn:E; [|discriminate].
    destruct (Spec.construct_each R factory rest) as [rs'|]; [|discriminate].
    intros H. inversion H. subst. constructor; auto.
Qed.

Lemma construct_each_first_error pre bad post e :
  Forall (fun seg => exists r, factory seg = Ok r) pre ->
  factory bad = Raise e ->
  Spec.construct_each R factory (pre ++ bad :: post) = Raise e.
Proof.
  intros Hpre Hbad. induction Hpre as [|seg pre [r Hr] _ IH]; cbn.
  - now rewrite Hbad.
  - now rewrite Hr, IH.
Qed.

(** C8. [WeekRanges.createFromStr] splits the text on commas, strips each
    segment, skips the empty ones and constructs one range per remaining
    segment: when it returns a list, that list holds the range of each
    segment, in the order of the text; when a segment fails and all
    segments before it succeed, it raises the error of that segment as it
    is, and returns no list. *)
Theorem createFromStr_refines_spec (text : string) :
  WeekRanges.createFromStr R factory text =
    Spec.createFromSpec R factory text /\
  (forall rs,
     WeekRanges.createFromStr R factory text = Ok rs ->
     Forall2 (fun seg r => factory seg = Ok r) (Spec.segments text) rs) /\
  (forall pre bad post e,
     Spec.segments text = pre ++ bad :: post ->
     Forall (fun seg => exists r, factory seg = Ok r) pre ->
     factory bad = Raise e ->
     WeekRanges.createFromStr R factory text = Raise e).
Proof.
  assert (E : WeekRanges.createFromStr R factory text =
              Spec.createFromSpec R factory text).
  { unfold WeekRanges.createFromStr, Spec.createFromSpec, Spec.segments.
    rewrite loop_construct_each.
    destruct (Spec.construct_each R factory _); reflexivity. }
  split; [exact E|]. rewrite E. unfold Spec.createFromSpec. split.
  - intros rs. apply construct_each_ok.
  - intros pre bad post e Hseg Hpre Hbad. rewrite Hseg.
    now apply construct_each_first_error.
Qed.

End BulkConstruction.

Example createFromStr_work_hours :
  WeekRanges.createFromStr _ (WeekRange.createFromStr english)
    "Mon 09:00 - 18:00, ,Tue 09:00 - 18:00," =
  Ok [WeekRange.mk (Some 1) 9 0 (Some 1) 18 0 WeekRange.InnerSameDay true;
      WeekRange.mk (Some 2) 9 0 (Some 2) 18 0 WeekRange.InnerSameDay true].
Proof. vm_compute. reflexivity. Qed.

Example createFromStr_first_error :
  WeekRanges.createFromStr _ (WeekRange.createFromStr english)
    "Mon 09:00 - 18:00, Tue 9 - 18, Xyz 09:00 - 18:00" =
  Raise (ValueError (MsgFormat "Tue 9 - 18")).
Proof. vm_compute. reflexivity. Qed.

(** * Further properties *)

(** ** The span a range stands for *)

Section Span.

Import WeekRange Inv.

Ltac unfold_span :=
  unfold in_span, lex_le, lex_lt, start_key, end_key, instant_key, day_key;
  cbn [WeekRange.bound WeekRange.startDay WeekRange.startHour
       WeekRange.startMinute WeekRange.endDay WeekRange.endHour
       WeekRange.endMinute datetime.strftime_w datetime.hour datetime.minute].

(** X1. A constructed range matches exactly the instants of its span:
    those from its start (included) to its end (excluded), round the end of
    the week or of the day when the start is the later of the two. The two
    regions where a method returns [False] inside the span are left out:
    the hours strictly between start and end hour of a range within one day
    ([between_hours]), and the other hours of a range without days that
    wraps within one hour ([outside_hour]). *)
Theorem intersects_is_span tbl a sh sm b eh em r dt :
  __init__ tbl a sh sm b eh em = Ok r ->
  ~ between_hours r dt ->
  ~ outside_hour r dt ->
  outcome (intersects r dt) = Ok (in_span r dt).
Proof.
  intros Hinit Hb Ho. apply init_wf in Hinit.
  unfold between_hours in Hb. unfold outside_hour in Ho.
  open_range r Hinit; slots; unfold_methods; unfold_span;
    cmp_cases; try reflexivity; exfalso;
    first [ apply Hb; repeat split; solve [lia | f_equal; lia | reflexivity]
          | apply Ho; repeat split; solve [lia | reflexivity] ].
Qed.

End Span.

Section SpanWitness.

Import WeekRange Inv.

(** "Fri 22:00 - Mon 06:00" at Sunday 23:59, inside, and at Monday 06:00,
    outside. *)
Lemma intersects_is_span_witness :
  in_span fri_2200_mon_0600 (datetime.mk 0 23 59) = true /\
  outcome (intersects fri_2200_mon_0600 (datetime.mk 0 23 59)) =
    Ok (in_span fri_2200_mon_0600 (datetime.mk 0 23 59)) /\
  in_span fri_2200_mon_0600 (datetime.mk 1 6 0) = false /\
  outcome (intersects fri_2200_mon_0600 (datetime.mk 1 6 0)) =
    Ok (in_span fri_2200_mon_0600 (datetime.mk 1 6 0)).
Proof.
  split; [reflexivity|]. split; [|split; [reflexivity|]].
  - refine (intersects_is_span english (DayStr "Fri") 22 0 (DayStr "Mon") 6 0
              fri_2200_mon_0600 (datetime.mk 0 23 59) _ _ _).
    + reflexivity.
    + unfold between_hours. cbn. intros (H & _). discriminate.
    + unfold outside_hour. cbn. intros (H & _). discriminate.
  - refine (intersects_is_span english (DayStr "Fri") 22 0 (DayStr "Mon") 6 0
              fri_2200_mon_0600 (datetime.mk 1 6 0) _ _ _).
    + reflexivity.
    + unfold between_hours. cbn. intros (H & _). discriminate.
    + unfold outside_hour. cbn. intros (H & _). discriminate.
Defined.

End SpanWitness.

(** ** Ranges without days *)

Section TimeOnly.

Import WeekRange Inv.

(** X2. A constructed range without days never reads the day of the
    instant: two instants with the same hour and minute get the same run,
    whatever their days. *)
Theorem time_only_ignores_day tbl a sh sm b eh em r d1 d2 h m :
  __init__ tbl a sh sm b eh em = Ok r ->
  startDay r = None ->
  intersects r (datetime.mk d1 h m) = intersects r (datetime.mk d2 h m).
Proof.
  intros Hinit Hs. apply init_wf in Hinit.
  open_range r Hinit; slots; try discriminate; reflexivity.
Qed.

Lemma time_only_ignores_day_witness :
  intersects (mk None 9 0 None 18 0 TimeOnlyInner true) (datetime.mk 2 9 0) =
  intersects (mk None 9 0 None 18 0 TimeOnlyInner true) (datetime.mk 6 9 0).
Proof.
  refine (time_only_ignores_day english DayNone 9 0 DayNone 18 0
            (mk None 9 0 None 18 0 TimeOnlyInner true) 2 6 9 0 _ _);
    reflexivity.
Defined.

(** X3. The reversal of a constructed range without days is constructed
    too, and at every instant it returns the negation of what the range
    returns, when the two hours of the range differ; when they are equal,
    it does so at the instants of that hour. *)
Theorem time_only_reversed_is_complement tbl a sh sm b eh em r dt :
  __init__ tbl a sh sm b eh em = Ok r ->
  startDay r = None ->
  startHour r <> endHour r \/ datetime.hour dt = startHour r ->
  exists r',
    reversed tbl r = Ok r' /\
    outcome (intersects r' dt) = Ok (negb (matches r dt)) /\
    outcome (intersects r dt) = Ok (matches r dt).
Proof.
  intros Hinit Hs Hh. apply init_wf in Hinit. unfold reversed, matches.
  open_range r Hinit; slots; try discriminate;
    (eexists; split; [init_branch|]);
    unfold_methods; cmp_cases; cbn; split; try reflexivity; lia.
Qed.

Lemma time_only_reversed_is_complement_witness :
  exists r',
    reversed english (mk None 22 30 None 6 0 TimeOnlyOuter true) = Ok r' /\
    outcome (intersects r' (datetime.mk 3 23 0)) =
      Ok (negb (matches (mk None 22 30 None 6 0 TimeOnlyOuter true)
                        (datetime.mk 3 23 0))) /\
    outcome (intersects (mk None 22 30 None 6 0 TimeOnlyOuter true)
                        (datetime.mk 3 23 0)) =
      Ok (matches (mk None 22 30 None 6 0 TimeOnlyOuter true)
                  (datetime.mk 3 23 0)).
Proof.
  refine (time_only_reversed_is_complement english DayNone 22 30 DayNone 6 0
            (mk None 22 30 None 6 0 TimeOnlyOuter true) (datetime.mk 3 23 0)
            _ _ _).
  - reflexivity.
  - reflexivity.
  - left. cbn. lia.
Defined.

End TimeOnly.

(** ** The first range of a list that matches *)

Section FirstMatch.

Import WeekRange Inv.

Lemma outcome_bind {A B : Type} (x : Run A) (k : A -> Run B) :
  outcome (bind x k) =
  match outcome x with
  | Ok v => outcome (k v)
  | Raise e => Raise e
  end.
Proof. unfold bind. destruct (outcome x); reflexivity. Qed.

(** X4. On a list of constructed ranges [WeekRanges.intersects] returns the
    first range of the list that matches the instant, and the value that
    stands for [False] when none does. *)
Theorem intersects_first_match self dt :
  Forall constructed self ->
  outcome (WeekRanges.intersects self dt) =
  Ok (find (fun r => matches r dt) self).
Proof.
  induction 1 as [|r rest Hr _ IH]; [reflexivity|].
  destruct Hr as (tbl & a & sh & sm & b & eh & em & Hinit).
  apply init_wf in Hinit.
  destruct (intersects_returns r dt Hinit) as [v Hv].
  cbn [WeekRanges.intersects find]. rewrite outcome_bind.
  unfold matches at 1. rewrite Hv.
  destruct v; [reflexivity | exact IH].
Qed.

(** Two ranges that both match Tuesday 10:00, in the two orders. *)
Lemma intersects_first_match_witness :
  outcome (WeekRanges.intersects
             [mk None 9 0 None 18 0 TimeOnlyInner true;
              mk (Some 2) 10 0 (Some 2) 10 30 InnerSameDaySameHour true]
             (datetime.mk 2 10 0)) =
    Ok (Some (mk None 9 0 None 18 0 TimeOnlyInner true)) /\
  outcome (WeekRanges.intersects
             [mk (Some 2) 10 0 (Some 2) 10 30 InnerSameDaySameHour true;
              mk None 9 0 None 18 0 TimeOnlyInner true]
             (datetime.mk 2 10 0)) =
    Ok (Some (mk (Some 2) 10 0 (Some 2) 10 30 InnerSameDaySameHour true)).
Proof.
  split.
  - refine (intersects_first_match
              [mk None 9 0 None 18 0 TimeOnlyInner true;
               mk (Some 2) 10 0 (Some 2) 10 30 InnerSameDaySameHour true]
              (datetime.mk 2 10 0) _).
    repeat constructor.
    + exists english, DayNone, 9, 0, DayNone, 18, 0. reflexivity.
    + exists english, (DayInt 2), 10, 0, (DayInt 2), 10, 30. reflexivity.
  - refine (intersects_first_match
              [mk (Some 2) 10 0 (Some 2) 10 30 InnerSameDaySameHour true;
               mk None 9 0 None 18 0 TimeOnlyInner true]
              (datetime.mk 2 10 0) _).
    repeat constructor.
    + exists english, (DayInt 2), 10, 0, (DayInt 2), 10, 30. reflexivity.
    + exists english, DayNone, 9, 0, DayNone, 18, 0. reflexivity.
Defined.

End FirstMatch.

(** ** When the constructor succeeds, and what it returns *)

Section Success.

Import WeekRange Inv.

Variable tbl : list string.

(** X5. Once both days are resolved, the constructor returns an object
    exactly in these cases: no day on either side and two different times;
    a day on both sides and a start that differs from the end in day, hour
    or minute; a start day only and an end time strictly after the start
    time. With an end day only it never does. *)
Theorem init_succeeds_iff a b sd ed sh sm eh em :
  resolveDay tbl a = Ok sd ->
  resolveDay tbl b = Ok ed ->
  ((exists r, __init__ tbl a sh sm b eh em = Ok r) <->
   match sd, ed with
   | None, None => ~ (sh = eh /\ sm = em)
   | Some s, Some e => ~ (s = e /\ sh = eh /\ sm = em)
   | Some _, None => sh < eh \/ (sh = eh /\ sm < em)
   | None, Some _ => False
   end).
Proof.
  intros Ha Hb. unfold __init__. rewrite Ha, Hb. cbn [bindR].
  destruct sd as [s|], ed as [e|]; cbn [bindR]; split;
    try (intros [r H]; revert H);
    cmp_run; try discriminate; try lia; eauto;
    intros H; try lia; exfalso; apply H; lia.
Qed.

(** X6. A constructed object is what the constructor returns for its own
    slots: constructing again from the days, hours and minutes it holds
    gives the same object, with the same method in the slot. *)
Theorem init_of_slots a sh sm b eh em r tbl' :
  __init__ tbl a sh sm b eh em = Ok r ->
  __init__ tbl' (day_arg (startDay r)) (startHour r) (startMinute r)
                (day_arg (endDay r)) (endHour r) (endMinute r) = Ok r.
Proof.
  intros Hinit.
  destruct (init_slots tbl a sh sm b eh em r Hinit) as (_ & _ & _ & _ & _ & Hs).
  apply init_wf in Hinit.
  open_range r Hinit; slots; subst; init_branch.
Qed.

(** X7. A constructed object is immutable: every assignment to an
    attribute of it, of any name and value, raises [AttributeError], and the
    assignment of the base class is not reached. *)
Theorem constructed_is_immutable a sh sm b eh em r
    (Value : Type) (base : t -> string -> Value -> Assignment) name v :
  __init__ tbl a sh sm b eh em = Ok r ->
  __setattr__ Value base r name v = AttributeError.
Proof.
  intros Hinit.
  destruct (init_slots tbl a sh sm b eh em r Hinit) as (_ & _ & _ & _ & _ & Hs).
  unfold __setattr__. rewrite Hs. cbn. now rewrite andb_false_r.
Qed.

End Success.

Section SuccessWitnesses.

Import WeekRange Inv.

(** Start "Mon" 12:00 and end 18:00 without a day. *)
Lemma init_succeeds_iff_witness :
  (exists r, __init__ english (DayStr "Mon") 12 0 DayNone 18 0 = Ok r) <->
  (12 < 18 \/ (12 = 18 /\ 0 < 0)).
Proof.
  refine (init_succeeds_iff english (DayStr "Mon") DayNone (Some 1) None
            12 0 18 0 _ _); reflexivity.
Defined.

Lemma init_of_slots_witness :
  __init__ [] (DayInt 1) 12 0 (DayInt 1) 18 0 =
  Ok (mk (Some 1) 12 0 (Some 1) 18 0 InnerSameDay true).
Proof.
  refine (init_of_slots english (DayStr "Mon") 12 0 DayNone 18 0
            (mk (Some 1) 12 0 (Some 1) 18 0 InnerSameDay true) [] _).
  reflexivity.
Defined.

(** [r.startHour = 10] on the object of "Mon 12:00 - 18:00". *)
Lemma constructed_is_immutable_witness :
  __setattr__ Z (fun r _ _ => Assigned r)
    (mk (Some 1) 12 0 (Some 1) 18 0 InnerSameDay true) "startHour" 10 =
  AttributeError.
Proof.
  refine (constructed_is_immutable english (DayStr "Mon") 12 0 DayNone 18 0
            (mk (Some 1) 12 0 (Some 1) 18 0 InnerSameDay true)
            Z (fun r _ _ => Assigned r) "startHour"%string 10 _).
  reflexivity.
Defined.

End SuccessWitnesses.

(** ** Day names *)

Section DayNames.

Lemma length_lower s : String.length (Py.lower s) = String.length s.
Proof. induction s as [|c s IH]; cbn; [reflexivity | now rewrite IH]. Qed.

Lemma prefix_short n s :
  (String.length s <= n)%nat -> Py.prefix n s = s.
Proof.
  unfold Py.prefix. revert n. induction s as [|c s IH]; intros n Hn.
  - destruct n; reflexivity.
  - destruct n as [|n]; cbn in Hn; [lia|].
    cbn. f_equal. apply IH. lia.
Qed.

Variable tbl : list string.

(** The name looked up for a string that is not a number. *)
Lemma dayStrToNumber_name s :
  Py.isdigit s = false ->
  dayStrToNumber tbl s =
  match Py.index (Py.prefix 3 (Py.lower s)) (getWeekDayAbbreviations tbl true)
  with
  | Some i => Ok i
  | None => Raise (WeekRangeValueError (MsgInvalidDay (Py.prefix 3 (Py.lower s))))
  end.
Proof.
  intros Hd. unfold dayStrToNumber. rewrite Hd. cbv zeta.
  destruct (Z.gtb_spec (Py.len (Py.lower s)) 3) as [Hlen|Hlen];
    [reflexivity|].
  rewrite prefix_short; [reflexivity|].
  unfold Py.len in Hlen. lia.
Qed.

(** X8. A day that is not written as a number is read without regard to
    case and by its first three characters only: two such strings with the
    same first three characters, up to case, resolve to the same day or
    raise the same exception. *)
Theorem dayStrToNumber_first_three s1 s2 :
  Py.isdigit s1 = false ->
  Py.isdigit s2 = false ->
  Py.prefix 3 (Py.lower s1) = Py.prefix 3 (Py.lower s2) ->
  dayStrToNumber tbl s1 = dayStrToNumber tbl s2.
Proof.
  intros H1 H2 E.
  rewrite (dayStrToNumber_name s1 H1), (dayStrToNumber_name s2 H2), E.
  reflexivity.
Qed.

Lemma index_range x l i :
  Py.index x l = Some i -> 0 <= i < Z.of_nat (List.length l).
Proof.
  revert i. induction l as [|y l IH]; intros i; cbn [Py.index List.length].
  - discriminate.
  - destruct (String.eqb y x).
    + intros H. inversion H. lia.
    + destruct (Py.index x l) as [j|]; [|discriminate].
      intros H. inversion H. specialize (IH j eq_refl). lia.
Qed.

(** A resolved day is a position of the table, or a number below 7. *)
Lemma dayStrToNumber_range s d :
  List.length tbl = 7%nat ->
  dayStrToNumber tbl s = Ok d -> 0 <= d <= 6.
Proof.
  intros Hlen. unfold dayStrToNumber.
  destruct (Py.isdigit s) eqn:Hd.
  - pose proof (int_nonneg s Hd) as Hpos.
    destruct (Z.geb_spec (Py.int s) 7); [discriminate|].
    intros E. inversion E. lia.
  - cbv zeta.
    match goal with
    | |- context [Py.index ?x ?l] => destruct (Py.index x l) as [i|] eqn:Hi
    end; [|discriminate].
    apply index_range in Hi. unfold getWeekDayAbbreviations in Hi.
    rewrite length_map, Hlen in Hi.
    intros E. inversion E. lia.
Qed.

End DayNames.

Section DayNamesWitness.

Lemma dayStrToNumber_first_three_witness :
  dayStrToNumber english "MONDAY" = dayStrToNumber english "mon".
Proof.
  refine (dayStrToNumber_first_three english "MONDAY" "mon" _ _ _);
    reflexivity.
Defined.

End DayNamesWitness.

(** ** Days of a range made from text *)

Section ParsedDays.

Import WeekRange Inv.

Variable tbl : list string.

(** The end day of a constructed object is the resolved end day, or the
    start day when none was given. *)
Lemma init_end_slot a sh sm b eh em r :
  __init__ tbl a sh sm b eh em = Ok r ->
  resolveDay tbl b = Ok (endDay r) \/
  (resolveDay tbl b = Ok None /\ endDay r = startDay r).
Proof.
  unfold __init__.
  destruct (resolveDay tbl a) as [sd|]; [|discriminate].
  destruct (resolveDay tbl b) as [ed|]; [|discriminate].
  cbn [bindR].
  destruct sd as [sd|], ed as [ed|]; cbn [bindR];
    repeat match goal with
    | |- context [if ?c then _ else _] => destruct c; cbn [bindR]
    end;
    intros H; inversion H; subst; cbn; auto; discriminate.
Qed.

Lemma resolveDay_group_range v d :
  List.length tbl = 7%nat ->
  resolveDay tbl (day_group v) = Ok (Some d) -> 0 <= d <= 6.
Proof.
  intros Hlen. destruct v as [s|]; cbn; [|discriminate].
  destruct (dayStrToNumber tbl s) as [x|] eqn:E; cbn; [|discriminate].
  intros H. inversion H. subst. eapply dayStrToNumber_range; eauto.
Qed.

(** With the seven entries of the table, a range made from text holds days
    from 0 to 6 only. *)
Lemma parsed_days rangeStr r :
  List.length tbl = 7%nat ->
  createFromStr tbl rangeStr = Ok r ->
  (forall d, startDay r = Some d -> 0 <= d <= 6) /\
  (forall d, endDay r = Some d -> 0 <= d <= 6).
Proof.
  intros Hlen. unfold createFromStr.
  destruct (Re.match_ WEEK_RANGE_RE rangeStr) as [g|]; [|discriminate].
  cbv zeta.
  destruct (int_group _) as [h1|]; [|discriminate]. cbn [bindR].
  destruct (int_group _) as [m1|]; [|discriminate]. cbn [bindR].
  destruct (int_group _) as [h2|]; [|discriminate]. cbn [bindR].
  destruct (int_group _) as [m2|]; [|discriminate]. cbn [bindR].
  intros Hinit.
  pose proof (init_slots _ _ _ _ _ _ _ _ Hinit) as (Hs & _).
  pose proof (init_end_slot _ _ _ _ _ _ _ Hinit) as He.
  assert (Hstart : forall d, startDay r = Some d -> 0 <= d <= 6).
  { intros d Hd. rewrite Hd in Hs.
    eapply resolveDay_group_range; eauto. }
  split; [exact Hstart|].
  intros d Hd. destruct He as [He | [_ He]].
  - rewrite Hd in He. eapply resolveDay_group_range; eauto.
  - apply Hstart. congruence.
Qed.

End ParsedDays.


(** ** Writing a range and reading it back *)

Section Characters.

Lemma alpha_not_blank c : Py.is_alpha c = true -> Ascii.eqb " " c = false.
Proof.
  destruct c as [[] [] [] [] [] [] [] []]; vm_compute; congruence.
Qed.

Lemma digit_not_blank c : Py.is_digit c = true -> Ascii.eqb " " c = false.
Proof.
  destruct c as [[] [] [] [] [] [] [] []]; vm_compute; congruence.
Qed.

Lemma digit_not_alpha c : Py.is_digit c = true -> Py.is_alpha c = false.
Proof.
  destruct c as [[] [] [] [] [] [] [] []]; vm_compute; congruence.
Qed.

Lemma alpha_not_digit c : Py.is_alpha c = true -> Py.is_digit c = false.
Proof.
  destruct c as [[] [] [] [] [] [] [] []]; vm_compute; congruence.
Qed.

End Characters.

Section Matcher.

(** One more character of the class is taken when the rest of the pattern
    matches after it. *)
Lemma chars_take {G : Type} p lo hi c s (k : string -> option G) g :
  p c = true -> Re.room hi = true ->
  Re.chars p (Nat.pred lo) (option_map Nat.pred hi) s k = Some g ->
  Re.chars p lo hi (String c s) k = Some g.
Proof.
  intros Hp Hr Hk. cbn [Re.chars]. rewrite Hp, Hr, Hk. reflexivity.
Qed.

(** The repetition stops before a character outside the class. *)
Lemma chars_stop {G : Type} p lo hi c s (k : string -> option G) :
  p c = false ->
  Re.chars p lo hi (String c s) k =
  match lo with
  | O => k (String c s)
  | S _ => None
  end.
Proof. intros Hp. cbn [Re.chars]. rewrite Hp. reflexivity. Qed.

(** The repetition stops when the upper bound is reached. *)
Lemma chars_full {G : Type} p lo s (k : string -> option G) :
  Re.chars p lo (Some O) s k =
  match lo with
  | O => k s
  | S _ => None
  end.
Proof.
  destruct s as [|c s]; cbn [Re.chars Re.room]; [reflexivity|].
  now rewrite andb_false_r.
Qed.

Lemma first_some {A : Type} (x y : option A) (g : A) :
  x = Some g ->
  match x with
  | Some g' => Some g'
  | None => y
  end = Some g.
Proof. intros ->. reflexivity. Qed.

End Matcher.

Section Reading.

Local Open Scope string_scope.

Ltac char_facts :=
  first [ assumption
        | apply alpha_not_blank; assumption
        | apply digit_not_blank; assumption
        | apply digit_not_alpha; assumption
        | reflexivity ].

Ltac match_step :=
  first
    [ apply chars_take; [char_facts | reflexivity | cbn [Nat.pred option_map]]
    | rewrite chars_full
    | rewrite chars_stop by char_facts
    | apply first_some
    | progress cbn [Re.run Re.one Re.chars] ].

(** The pattern on a text of the form [Ddd HH:MM - Ddd HH:MM]. *)
Lemma match_day_bound a1 a2 a3 x1 y1 x2 y2 b1 b2 b3 x3 y3 x4 y4 :
  Py.is_alpha a1 = true -> Py.is_alpha a2 = true -> Py.is_alpha a3 = true ->
  Py.is_digit x1 = true -> Py.is_digit y1 = true ->
  Py.is_digit x2 = true -> Py.is_digit y2 = true ->
  Py.is_alpha b1 = true -> Py.is_alpha b2 = true -> Py.is_alpha b3 = true ->
  Py.is_digit x3 = true -> Py.is_digit y3 = true ->
  Py.is_digit x4 = true -> Py.is_digit y4 = true ->
  Re.match_ WEEK_RANGE_RE
    (String a1 (String a2 (String a3 (String " "
     (String x1 (String y1 (String ":" (String x2 (String y2
     (String " " (String "-" (String " "
     (String b1 (String b2 (String b3 (String " "
     (String x3 (String y3 (String ":"
     (String x4 (String y4 "")))))))))))))))))))))
  = Some [("endMinute", String x4 (String y4 ""));
          ("endHour", String x3 (String y3 ""));
          ("endDay", String b1 (String b2 (String b3 "")));
          ("startMinute", String x2 (String y2 ""));
          ("startHour", String x1 (String y1 ""));
          ("startDay", String a1 (String a2 (String a3 "")))].
Proof.
  intros. unfold Re.match_, WEEK_RANGE_RE. cbn [Re.run Re.one].
  repeat match_step. reflexivity.
Qed.

(** The pattern on a text of the form [HH:MM - HH:MM]. *)
Lemma match_time_only x1 y1 x2 y2 x3 y3 x4 y4 :
  Py.is_digit x1 = true -> Py.is_digit y1 = true ->
  Py.is_digit x2 = true -> Py.is_digit y2 = true ->
  Py.is_digit x3 = true -> Py.is_digit y3 = true ->
  Py.is_digit x4 = true -> Py.is_digit y4 = true ->
  Re.match_ WEEK_RANGE_RE
    (String x1 (String y1 (String ":" (String x2 (String y2
     (String " " (String "-" (String " "
     (String x3 (String y3 (String ":"
     (String x4 (String y4 "")))))))))))))
  = Some [("endMinute", String x4 (String y4 ""));
          ("endHour", String x3 (String y3 ""));
          ("startMinute", String x2 (String y2 ""));
          ("startHour", String x1 (String y1 ""))].
Proof.
  intros. unfold Re.match_, WEEK_RANGE_RE. cbn [Re.run Re.one].
  repeat match_step. reflexivity.
Qed.

(** A number of at most two digits is written with two digits, and read
    back from them. *)
Lemma zfill_two z :
  0 <= z <= 99 ->
  exists x y,
    Py.zfill 2 (Py.str z) = String x (String y "") /\
    Py.is_digit x = true /\ Py.is_digit y = true /\
    Py.int (String x (String y "")) = z.
Proof.
  intros Hz.
  assert (Hall : forallb
            (fun n =>
               match Py.zfill 2 (Py.str (Z.of_nat n)) with
               | String x (String y EmptyString) =>
                   Py.is_digit x && Py.is_digit y
                   && (Py.int (String x (String y "")) =? Z.of_nat n)%Z
               | _ => false
               end) (seq 0 100) = true) by (vm_compute; reflexivity).
  rewrite forallb_forall in Hall.
  specialize (Hall (Z.to_nat z)).
  rewrite Z2Nat.id in Hall by lia.
  assert (Hin : In (Z.to_nat z) (seq 0 100)) by (apply in_seq; lia).
  specialize (Hall Hin).
  destruct (Py.zfill 2 (Py.str z)) as [|x [|y [|]]]; try discriminate.
  apply andb_true_iff in Hall. destruct Hall as [Hall Hint].
  apply andb_true_iff in Hall. destruct Hall as [Hx Hy].
  apply Z.eqb_eq in Hint. eauto 6.
Qed.

(** A day of the week has its abbreviation in a table of the expected
    kind, and the abbreviation resolves to the day. *)
Lemma table_ok_entry tbl d :
  table_ok tbl = true -> 0 <= d <= 6 ->
  exists a b c,
    Py.getitem tbl d = Some (String a (String b (String c ""))) /\
    Py.is_alpha a = true /\ Py.is_alpha b = true /\ Py.is_alpha c = true /\
    dayStrToNumber tbl (String a (String b (String c ""))) = Ok d.
Proof.
  unfold table_ok. intros Hok Hd.
  apply andb_true_iff in Hok. destruct Hok as [Hlen Hall].
  apply Nat.eqb_eq in Hlen. rewrite forallb_forall in Hall.
  assert (Hin : In (Z.to_nat d) (seq 0 7)) by (apply in_seq; lia).
  specialize (Hall _ Hin). unfold abbreviation_ok in Hall.
  unfold Py.getitem. rewrite Hlen.
  destruct (Z.leb_spec 0 d); [|lia].
  destruct (Z.ltb_spec d (Z.of_nat 7)); [|lia].
  cbn [andb].
  destruct (nth_error tbl (Z.to_nat d)) as [s|]; [|discriminate].
  apply andb_true_iff in Hall. destruct Hall as [Hall Hres].
  apply andb_true_iff in Hall. destruct Hall as [Hl Ha].
  apply Nat.eqb_eq in Hl.
  destruct s as [|a [|b [|c [|]]]]; try discriminate.
  cbn [Py.all_chars] in Ha.
  apply andb_true_iff in Ha. destruct Ha as [Ha Hb].
  apply andb_true_iff in Hb. destruct Hb as [Hb Hc].
  apply andb_true_iff in Hc. destruct Hc as [Hc _].
  destruct (dayStrToNumber tbl _) as [i|] eqn:E; [|discriminate].
  apply Z.eqb_eq in Hres. rewrite Z2Nat.id in Hres by lia. subst i.
  exists a, b, c. auto 6.
Qed.

End Reading.

Section RoundTrip.

Import WeekRange Inv.

Variable tbl : list string.

Lemma init_resolved a a' sh sm b b' eh em :
  resolveDay tbl a = resolveDay tbl a' ->
  resolveDay tbl b = resolveDay tbl b' ->
  __init__ tbl a sh sm b eh em = __init__ tbl a' sh sm b' eh em.
Proof. intros Ha Hb. unfold __init__. rewrite Ha, Hb. reflexivity. Qed.

Lemma resolveDay_name s d :
  dayStrToNumber tbl s = Ok d ->
  resolveDay tbl (DayStr s) = resolveDay tbl (DayInt d).
Proof. intros H. cbn. rewrite H. reflexivity. Qed.

Ltac digits_of H :=
  let x := fresh "x" in let y := fresh "y" in
  let E := fresh "E" in let Dx := fresh "Dx" in let Dy := fresh "Dy" in
  let I := fresh "I" in
  destruct (zfill_two _ H) as (x & y & E & Dx & Dy & I).

Ltac name_of Htbl H :=
  let a := fresh "a" in let b := fresh "b" in let c := fresh "c" in
  let E := fresh "N" in let Aa := fresh "Aa" in let Ab := fresh "Ab" in
  let Ac := fresh "Ac" in let R := fresh "R" in
  destruct (table_ok_entry tbl _ Htbl H) as (a & b & c & E & Aa & Ab & Ac & R).

Lemma written_is_read a sh sm b eh em r :
  table_ok tbl = true ->
  __init__ tbl a sh sm b eh em = Ok r ->
  writable r ->
  exists s, __str__ tbl r = Some s /\ createFromStr tbl s = Ok r.
Proof.
  intros Htbl Hinit (Hsd & Hed & Hsh & Hsm & Heh & Hem).
  pose proof (init_of_slots tbl _ _ _ _ _ _ r tbl Hinit) as Hre.
  apply init_wf in Hinit.
  digits_of Hsh. digits_of Hsm. digits_of Heh. digits_of Hem.
  unfold __str__, createFromStr, dayName, getWeekDayAbbreviations.
  rewrite map_id.
  unfold day_in_week in Hsd, Hed.
  open_range r Hinit; slots.
  1-4: rewrite ?E, ?E0, ?E1, ?E2; cbn [String.append]; eexists;
       (split; [reflexivity|]);
       rewrite match_time_only by assumption; cbv zeta;
       cbn [Re.groupdict String.eqb Ascii.eqb Bool.eqb int_group day_group bindR];
       rewrite ?I, ?I0, ?I1, ?I2; exact Hre.
  all: repeat match goal with
       | H : forall x, Some ?d = Some x -> _ |- _ => specialize (H d eq_refl)
       end;
       repeat match goal with
       | H : 0 <= _ <= 6 |- _ => name_of Htbl H; clear H
       end;
       rewrite ?N, ?N0, ?E, ?E0, ?E1, ?E2; cbn [String.append]; eexists;
       (split; [reflexivity|]);
       rewrite match_day_bound by assumption; cbv zeta;
       cbn [Re.groupdict String.eqb Ascii.eqb Bool.eqb int_group day_group bindR];
       rewrite ?I, ?I0, ?I1, ?I2;
       match goal with
       | R1 : dayStrToNumber tbl ?s1 = Ok ?d1,
         R2 : dayStrToNumber tbl ?s2 = Ok ?d2
         |- __init__ tbl (DayStr ?s1) _ _ (DayStr ?s2) _ _ = _ =>
           rewrite (init_resolved (DayStr s1) (DayInt d1) _ _
                      (DayStr s2) (DayInt d2) _ _
                      (resolveDay_name _ _ R1) (resolveDay_name _ _ R2))
       | R1 : dayStrToNumber tbl ?s1 = Ok ?d1
         |- __init__ tbl (DayStr ?s1) _ _ (DayStr ?s1) _ _ = _ =>
           rewrite (init_resolved (DayStr s1) (DayInt d1) _ _
                      (DayStr s1) (DayInt d1) _ _
                      (resolveDay_name _ _ R1) (resolveDay_name _ _ R1))
       end;
       exact Hre.
Qed.

(** X10. Writing a constructed range and reading the text back gives the
    range again: when the table holds seven abbreviations of three letters
    that resolve to their own positions, and the slots hold days of the
    week and hours and minutes from 0 to 99, [str] returns a text and
    [createFromStr] makes the same object from it. An end day that was
    filled in by the constructor is written out. *)
Theorem str_then_createFromStr a sh sm b eh em r :
  table_ok tbl = true ->
  __init__ tbl a sh sm b eh em = Ok r ->
  writable r ->
  exists s, __str__ tbl r = Some s /\ createFromStr tbl s = Ok r.
Proof. apply written_is_read. Qed.

End RoundTrip.

Section RoundTripWitness.

Import WeekRange Inv.

Lemma str_then_createFromStr_witness :
  exists s,
    __str__ english fri_2200_mon_0600 = Some s /\
    createFromStr english s = Ok fri_2200_mon_0600.
Proof.
  refine (str_then_createFromStr english (DayInt 5) 22 0 (DayInt 1) 6 0
            fri_2200_mon_0600 _ _ _).
  - reflexivity.
  - reflexivity.
  - unfold writable, day_in_week. cbn.
    repeat split; intros; try lia;
      match goal with H : Some _ = Some _ |- _ => inversion H end; lia.
Defined.

End RoundTripWitness.

Example str_fri_mon :
  WeekRange.__str__ english fri_2200_mon_0600 = Some "Fri 22:00 - Mon 06:00"%string.
Proof. reflexivity. Qed.

Example str_time_only :
  WeekRange.__str__ english
    (WeekRange.mk None 9 5 None 18 0 WeekRange.TimeOnlyInner true) =
  Some "09:05 - 18:00"%string.
Proof. reflexivity. Qed.

(** A negative day counts from the end of the table, and a day past its end
    raises [IndexError]. *)
Example str_negative_day :
  WeekRange.__str__ english
    (WeekRange.mk (Some (-1)) 10 0 (Some (-1)) 12 0 WeekRange.InnerSameDay true) =
  Some "Sat 10:00 - Sat 12:00"%string.
Proof. reflexivity. Qed.

Example str_day_out_of_table :
  WeekRange.__str__ english
    (WeekRange.mk (Some 9) 10 0 (Some 9) 12 0 WeekRange.InnerSameDay true) = None.
Proof. reflexivity. Qed.

(** ** Lists of ranges made from text *)

Section Lists.

Variable R : Type.
Variable factory : string -> Result R.

Lemma split_cons sep s : exists h t, Py.split sep s = h :: t.
Proof.
  induction s as [|c s (h & t & IH)]; cbn [Py.split]; [eauto|].
  destruct (Ascii.eqb c sep); [eauto|]. rewrite IH. eauto.
Qed.

(** Splitting a text with a separator in the middle. *)
Lemma split_app sep s1 s2 :
  Py.split sep (s1 ++ String sep s2) = Py.split sep s1 ++ Py.split sep s2.
Proof.
  induction s1 as [|c s1 IH]; cbn [String.append Py.split].
  - now rewrite Ascii.eqb_refl.
  - destruct (Ascii.eqb c sep); [now rewrite IH|].
    rewrite IH. destruct (split_cons sep s1) as (h & t & E).
    rewrite E. reflexivity.
Qed.

Lemma construct_each_app l1 l2 :
  Spec.construct_each R factory (l1 ++ l2) =
  match Spec.construct_each R factory l1 with
  | Ok r1 =>
      match Spec.construct_each R factory l2 with
      | Ok r2 => Ok (r1 ++ r2)
      | Raise e => Raise e
      end
  | Raise e => Raise e
  end.
Proof.
  induction l1 as [|seg l1 IH]; cbn [Spec.construct_each List.app].
  - destruct (Spec.construct_each R factory l2); reflexivity.
  - destruct (factory seg) as [r|e]; [|reflexivity].
    rewrite IH.
    destruct (Spec.construct_each R factory l1); [|reflexivity].
    destruct (Spec.construct_each R factory l2); reflexivity.
Qed.

(** X11. The list made from two texts joined by a comma is the list of the
    first text followed by the list of the second; it raises what the first
    text raises, and otherwise what the second raises. *)
Theorem createFromStr_comma (s1 s2 : string) :
  WeekRanges.createFromStr R factory (s1 ++ String "," s2) =
  (l1 <- WeekRanges.createFromStr R factory s1 ;;
   l2 <- WeekRanges.createFromStr R factory s2 ;;
   Ok (l1 ++ l2))%result.
Proof.
  unfold WeekRanges.createFromStr. cbv zeta.
  rewrite !loop_construct_each, split_app, map_app, filter_app,
    construct_each_app.
  destruct (Spec.construct_each R factory _) as [r1|e1]; cbn [bindR List.app];
    [|reflexivity].
  destruct (Spec.construct_each R factory _) as [r2|e2]; reflexivity.
Qed.

Lemma lstrip_blank s :
  Py.all_chars Py.is_space s = true -> Py.lstrip s = EmptyString.
Proof.
  induction s as [|c s IH]; cbn [Py.all_chars Py.lstrip]; [reflexivity|].
  intros H. apply andb_true_iff in H. destruct H as [Hc Hs].
  rewrite Hc. auto.
Qed.

Lemma split_blank s :
  Py.all_chars (fun c => Py.is_space c || Ascii.eqb c ",") s = true ->
  Forall (fun seg => Py.all_chars Py.is_space seg = true) (Py.split "," s).
Proof.
  induction s as [|c s IH]; cbn [Py.all_chars Py.split].
  - intros _. repeat constructor.
  - intros H. apply andb_true_iff in H. destruct H as [Hc Hs].
    specialize (IH Hs).
    destruct (Ascii.eqb c ",") eqn:E.
    + constructor; [reflexivity | exact IH].
    + rewrite orb_false_r in Hc.
      destruct (split_cons "," s) as (h & t & Es). rewrite Es in *.
      inversion IH; subst. constructor; [|assumption].
      cbn [Py.all_chars]. now rewrite Hc.
Qed.

(** X12. A text made of whitespace and commas only gives the empty list:
    nothing is constructed and nothing is raised. *)
Theorem createFromStr_blank (s : string) :
  Py.all_chars (fun c => Py.is_space c || Ascii.eqb c ",") s = true ->
  WeekRanges.createFromStr R factory s = Ok [].
Proof.
  intros H. apply split_blank in H.
  unfold WeekRanges.createFromStr. cbv zeta.
  induction H as [|seg segs Hseg _ IH]; [reflexivity|].
  cbn [map WeekRanges.loop]. unfold Py.strip.
  rewrite (lstrip_blank seg Hseg). exact IH.
Qed.

End Lists.

Section ListsWitness.

Lemma createFromStr_blank_witness :
  WeekRanges.createFromStr WeekRange.t (WeekRange.createFromStr english)
    " , ,,  " = Ok [].
Proof.
  refine (createFromStr_blank WeekRange.t (WeekRange.createFromStr english)
            " , ,,  " _).
  reflexivity.
Defined.

End ListsWitness.

(** ** What the matcher accepts *)

Section MatcherSound.

Lemma chars_sound {G : Type} p s : forall lo hi (k : string -> option G) g,
  Re.chars p lo hi s k = Some g ->
  exists w rest,
    s = (w ++ rest)%string /\ Py.all_chars p w = true /\
    (lo <= String.length w)%nat /\ within hi (String.length w) /\
    k rest = Some g.
Proof.
  assert (Hstop : forall lo hi (k : string -> option G) g s0,
             match lo with O => k s0 | S _ => None end = Some g ->
             exists w rest,
               s0 = (w ++ rest)%string /\ Py.all_chars p w = true /\
               (lo <= String.length w)%nat /\ within hi (String.length w) /\
               k rest = Some g).
  { intros lo hi k g s0 H. destruct lo; [|discriminate].
    exists EmptyString, s0. cbn. repeat split; auto.
    destruct hi; cbn; [lia | exact I]. }
  induction s as [|c s IH]; intros lo hi k g; cbn [Re.chars].
  - apply Hstop.
  - destruct (p c && Re.room hi)%bool eqn:E; [|apply Hstop].
    destruct (Re.chars p (Nat.pred lo) (option_map Nat.pred hi) s k)
      as [g1|] eqn:E1; [|apply Hstop].
    intros H. inversion H. subst g1.
    apply IH in E1. destruct E1 as (w & rest & Hs & Hw & Hlo & Hhi & Hk).
    apply andb_true_iff in E. destruct E as [Hc Hroom].
    exists (String c w), rest. cbn [String.append Py.all_chars String.length].
    rewrite Hs, Hc, Hw. repeat split; auto; [lia|].
    destruct hi as [[|h]|]; cbn in *; try discriminate; [lia | exact I].
Qed.

(** The matcher is sound: when it reports a match, the pattern does
    match a beginning of the text, the groups it adds are those of that
    match, and the rest of the matching went on from the end of it. *)
Theorem run_sound r : forall s g k g',
  Re.run r s g k = Some g' ->
  exists rest gs, Matches r s rest gs /\ k rest (gs ++ g) = Some g'.
Proof.
  induction r as [p lo hi | name r IH | r IH | r1 IH1 r2 IH2 | ];
    intros s g k g' H; cbn [Re.run] in H.
  - apply chars_sound in H.
    destruct H as (w & rest & Hs & Hw & Hlo & Hhi & Hk). subst s.
    exists rest, []. split; [now constructor | exact Hk].
  - apply IH in H. destruct H as (rest & gs & Hm & Hk).
    exists rest, ((name, Re.consumed s rest) :: gs).
    split; [now constructor | exact Hk].
  - destruct (Re.run r s g k) as [g1|] eqn:E.
    + inversion H. subst g1. apply IH in E.
      destruct E as (rest & gs & Hm & Hk).
      exists rest, gs. split; [now constructor | exact Hk].
    + exists s, []. split; [apply M_none | exact H].
  - apply IH1 in H. destruct H as (mid & gs1 & Hm1 & H).
    apply IH2 in H. destruct H as (rest & gs2 & Hm2 & Hk).
    exists rest, (gs2 ++ gs1). split; [econstructor; eauto|].
    now rewrite <- app_assoc.
  - destruct (Re.at_end s) eqn:E; [|discriminate].
    exists s, []. split; [now constructor | exact H].
Qed.

End MatcherSound.

(** ** What a range made from text holds *)

(** Take a match of the pattern apart, piece by piece. *)
Ltac invert_match :=
  repeat match goal with
  | H : Matches (Re.Seq _ _) _ _ _ |- _ => inversion H; subst; clear H
  | H : Matches (Re.Group _ _) _ _ _ |- _ => inversion H; subst; clear H
  | H : Matches (Re.Optional _) _ _ _ |- _ => inversion H; subst; clear H
  | H : Matches (Re.Chars _ _ _) _ _ _ |- _ => inversion H; subst; clear H
  | H : Matches Re.EndOfString _ _ _ |- _ => inversion H; subst; clear H
  | H : Matches (Re.one _) _ _ _ |- _ => unfold Re.one in H
  end.

Section ParsedNumbers.

Import WeekRange.

Lemma length_append_ w rest :
  String.length (w ++ rest) = (String.length w + String.length rest)%nat.
Proof. induction w as [|c w IH]; cbn; [reflexivity | now rewrite IH]. Qed.

Lemma consumed_app w rest : Re.consumed (w ++ rest) rest = w.
Proof.
  unfold Re.consumed. rewrite length_append_.
  replace (String.length w + String.length rest - String.length rest)%nat
    with (String.length w) by lia.
  induction w as [|c w IH]; cbn.
  - destruct rest; reflexivity.
  - now rewrite IH.
Qed.

Lemma digit_value c :
  Py.is_digit c = true -> 0 <= Z.of_nat (Py.code c) - 48 <= 9.
Proof.
  unfold Py.is_digit, Py.between. intros H.
  apply andb_true_iff in H. destruct H as [H1 H2].
  apply Nat.leb_le in H1, H2. lia.
Qed.

Lemma int_two_digits w :
  Py.all_chars Py.is_digit w = true ->
  (1 <= String.length w)%nat -> within (Some 2%nat) (String.length w) ->
  0 <= Py.int w <= 99.
Proof.
  intros Hd Hlo Hhi. cbn in Hhi.
  destruct w as [|x [|y [|]]]; cbn in Hlo, Hhi; try lia;
    cbn [Py.all_chars] in Hd;
    repeat match goal with
    | H : (_ && _)%bool = true |- _ =>
        apply andb_true_iff in H; destruct H
    end;
    repeat match goal with
    | H : Py.is_digit _ = true |- _ => apply digit_value in H
    end;
    unfold Py.int; cbn [Py.int_digits]; lia.
Qed.

(** The numbers read from a text have one or two digits. *)
Lemma parsed_numbers tbl rangeStr r :
  createFromStr tbl rangeStr = Ok r ->
  0 <= startHour r <= 99 /\ 0 <= startMinute r <= 99 /\
  0 <= endHour r <= 99 /\ 0 <= endMinute r <= 99.
Proof.
  unfold createFromStr.
  destruct (Re.match_ WEEK_RANGE_RE rangeStr) as [g|] eqn:Hm; [|discriminate].
  unfold Re.match_ in Hm. apply run_sound in Hm.
  destruct Hm as (rest & gs & Hm & Hg). inversion Hg. subst g. clear Hg.
  rewrite app_nil_r.
  unfold WEEK_RANGE_RE in Hm. cbv zeta in Hm.
  invert_match.
  all: rewrite ?consumed_app;
    cbn [List.app Re.groupdict String.eqb Ascii.eqb Bool.eqb int_group bindR];
    intros Hinit;
    destruct (init_slots _ _ _ _ _ _ _ _ Hinit) as (_ & Hsh & Hsm & Heh & Hem & _);
    rewrite Hsh, Hsm, Heh, Hem;
    repeat split; apply int_two_digits; assumption.
Qed.

Lemma createFromStr_constructed tbl rangeStr r :
  createFromStr tbl rangeStr = Ok r ->
  exists a sh sm b eh em, __init__ tbl a sh sm b eh em = Ok r.
Proof.
  unfold createFromStr.
  destruct (Re.match_ WEEK_RANGE_RE rangeStr) as [g|]; [|discriminate].
  cbv zeta.
  destruct (int_group _) as [h1|]; [|discriminate]. cbn [bindR].
  destruct (int_group _) as [m1|]; [|discriminate]. cbn [bindR].
  destruct (int_group _) as [h2|]; [|discriminate]. cbn [bindR].
  destruct (int_group _) as [m2|]; [|discriminate]. cbn [bindR].
  eauto 8.
Qed.

(** X9. A range made from text by [createFromStr] holds hours and minutes
    from 0 to 99, whatever the text (the pattern reads one or two digits and
    nothing compares them with 23 or 59), and, when the table of
    abbreviations has its seven entries, days from 0 to 6. *)
Theorem createFromStr_writable tbl rangeStr r :
  List.length tbl = 7%nat ->
  createFromStr tbl rangeStr = Ok r ->
  writable r.
Proof.
  intros Hlen H. unfold writable, day_in_week.
  destruct (parsed_days tbl rangeStr r Hlen H) as [Hs He].
  destruct (parsed_numbers tbl rangeStr r H) as (H1 & H2 & H3 & H4).
  auto 7.
Qed.

(** X13. Reading a text, writing the range and reading what was written
    gives the same range: with a table of seven abbreviations of three
    letters that resolve to their own positions, every range made from text
    is written by [str] as a text that [createFromStr] reads as that
    range. *)
Theorem createFromStr_str_stable tbl rangeStr r :
  table_ok tbl = true ->
  createFromStr tbl rangeStr = Ok r ->
  exists s, __str__ tbl r = Some s /\ createFromStr tbl s = Ok r.
Proof.
  intros Htbl H.
  assert (Hlen : List.length tbl = 7%nat).
  { unfold table_ok in Htbl. apply andb_true_iff in Htbl.
    destruct Htbl as [Hlen _]. now apply Nat.eqb_eq in Hlen. }
  destruct (createFromStr_constructed tbl rangeStr r H)
    as (a & sh & sm & b & eh & em & Hinit).
  eapply written_is_read; eauto.
  unfold writable, day_in_week.
  destruct (parsed_days tbl rangeStr r Hlen H) as [Hs He].
  destruct (parsed_numbers tbl rangeStr r H) as (H1 & H2 & H3 & H4).
  auto 7.
Qed.

End ParsedNumbers.

Section ParsedWitnesses.

Import WeekRange.

Local Open Scope string_scope.

(** "25:61 - 99:00" is read, with its hours and minutes as they stand. *)
Lemma createFromStr_writable_witness :
  createFromStr english "25:61 - 99:00" =
    Ok (mk None 25 61 None 99 0 TimeOnlyInner true) /\
  writable (mk None 25 61 None 99 0 TimeOnlyInner true).
Proof.
  split; [vm_compute; reflexivity|].
  refine (createFromStr_writable english "25:61 - 99:00"
            (mk None 25 61 None 99 0 TimeOnlyInner true) _ _).
  - reflexivity.
  - vm_compute. reflexivity.
Defined.

(** " mon 9:5-18:00 " is read as the range written "Mon 09:05 - Mon 18:00". *)
Lemma createFromStr_str_stable_witness :
  __str__ english (mk (Some 1) 9 5 (Some 1) 18 0 InnerSameDay true) =
    Some "Mon 09:05 - Mon 18:00" /\
  exists s,
    __str__ english (mk (Some 1) 9 5 (Some 1) 18 0 InnerSameDay true) = Some s /\
    createFromStr english s = Ok (mk (Some 1) 9 5 (Some 1) 18 0 InnerSameDay true).
Proof.
  split; [reflexivity|].
  refine (createFromStr_str_stable english " mon 9:5-18:00 "
            (mk (Some 1) 9 5 (Some 1) 18 0 InnerSameDay true) _ _).
  - reflexivity.
  - vm_compute. reflexivity.
Defined.

End ParsedWitnesses.

(** ** What every constructed object has, and how construction fails *)

Section Invariants.

Import WeekRange Inv.

Variable tbl : list string.

(** X14. A constructed object has a day on both sides or on neither, is
    never of length zero (its start differs from its end in day, hour or
    minute), is marked as set up, and holds an inner method exactly when its
    start lies before its end. *)
Theorem constructed_invariants a sh sm b eh em r :
  __init__ tbl a sh sm b eh em = Ok r ->
  (startDay r = None <-> endDay r = None) /\
  (startDay r, startHour r, startMinute r)
    <> (endDay r, endHour r, endMinute r) /\
  isSetup r = true /\
  (start_before_end r <->
   (bound r = TimeOnlyInnerMinOnly \/ bound r = TimeOnlyInner \/
    bound r = Inner \/ bound r = InnerSameDay \/
    bound r = InnerSameDaySameHour)).
Proof.
  intros Hinit.
  destruct (init_slots tbl a sh sm b eh em r Hinit) as (_ & _ & _ & _ & _ & Hs).
  apply init_wf in Hinit.
  split; [|split; [|split; [exact Hs|]]];
    open_range r Hinit; slots; unfold start_before_end, time_before; slots.
  all: try (split; intros; congruence).
  all: try (intros E; inversion E; lia).
  all: split; intros H;
    try (repeat first [discriminate | destruct H as [H|H]]; fail);
    try lia; auto 6.
Qed.

Lemma dayStrToNumber_raises s e :
  dayStrToNumber tbl s = Raise e -> is_WeekRangeValueError e = true.
Proof.
  unfold dayStrToNumber.
  destruct (Py.isdigit s).
  - destruct (Py.int s >=? 7); intros H; inversion H; reflexivity.
  - cbv zeta.
    match goal with
    | |- context [Py.index ?x ?l] => destruct (Py.index x l)
    end; intros H; inversion H; reflexivity.
Qed.

Lemma resolveDay_raises d e :
  resolveDay tbl d = Raise e -> is_WeekRangeValueError e = true.
Proof.
  destruct d as [|s|z]; cbn; try discriminate.
  destruct (dayStrToNumber tbl s) eqn:E; cbn; [discriminate|].
  intros H. inversion H. subst. eapply dayStrToNumber_raises; eauto.
Qed.

(** Whatever the constructor raises is a [ValueError]. *)
Lemma init_raises a sh sm b eh em e :
  __init__ tbl a sh sm b eh em = Raise e -> is_ValueError e = true.
Proof.
  unfold __init__.
  destruct (resolveDay tbl a) as [sd|e1] eqn:Ea; cbn [bindR].
  2:{ intros H. inversion H. subst.
      apply resolveDay_raises in Ea. destruct e; try discriminate; auto. }
  destruct (resolveDay tbl b) as [ed|e2] eqn:Eb; cbn [bindR].
  2:{ intros H. inversion H. subst.
      apply resolveDay_raises in Eb. destruct e; try discriminate; auto. }
  destruct sd as [sd|], ed as [ed|]; cbn [bindR];
    repeat match goal with
    | |- context [if ?c then _ else _] => destruct c; cbn [bindR]
    end;
    intros H; inversion H; reflexivity.
Qed.

(** The four numbers take part in every match of the pattern. *)
Lemma match_numbers rangeStr g :
  Re.match_ WEEK_RANGE_RE rangeStr = Some g ->
  (exists w, Re.groupdict g "startHour" = Some w) /\
  (exists w, Re.groupdict g "startMinute" = Some w) /\
  (exists w, Re.groupdict g "endHour" = Some w) /\
  (exists w, Re.groupdict g "endMinute" = Some w).
Proof.
  intros Hm. unfold Re.match_ in Hm. apply run_sound in Hm.
  destruct Hm as (rest & gs & Hm & Hg). inversion Hg. subst g. clear Hg.
  rewrite app_nil_r.
  unfold WEEK_RANGE_RE in Hm. cbv zeta in Hm.
  invert_match;
    cbn [List.app Re.groupdict String.eqb Ascii.eqb Bool.eqb]; eauto 8.
Qed.

(** X15. Whatever [WeekRange.createFromStr] and the constructor raise is a
    [ValueError], of the module's own subclass or not: a text that does not
    fit the pattern, a day that is not known, a day on one side only, a
    range of length zero. *)
Theorem createFromStr_raises rangeStr e :
  createFromStr tbl rangeStr = Raise e -> is_ValueError e = true.
Proof.
  unfold createFromStr.
  destruct (Re.match_ WEEK_RANGE_RE rangeStr) as [g|] eqn:Hm.
  - destruct (match_numbers rangeStr g Hm)
      as ((w1 & E1) & (w2 & E2) & (w3 & E3) & (w4 & E4)).
    cbv zeta. rewrite E1, E2, E3, E4. cbn [int_group bindR].
    apply init_raises.
  - intros H. inversion H. reflexivity.
Qed.

End Invariants.

Section InvariantsWitness.

Import WeekRange Inv.

Lemma constructed_invariants_witness :
  (startDay fri_2200_mon_0600 = None <-> endDay fri_2200_mon_0600 = None) /\
  (startDay fri_2200_mon_0600, startHour fri_2200_mon_0600,
   startMinute fri_2200_mon_0600)
    <> (endDay fri_2200_mon_0600, endHour fri_2200_mon_0600,
        endMinute fri_2200_mon_0600) /\
  isSetup fri_2200_mon_0600 = true /\
  (start_before_end fri_2200_mon_0600 <->
   (bound fri_2200_mon_0600 = TimeOnlyInnerMinOnly \/
    bound fri_2200_mon_0600 = TimeOnlyInner \/
    bound fri_2200_mon_0600 = Inner \/ bound fri_2200_mon_0600 = InnerSameDay \/
    bound fri_2200_mon_0600 = InnerSameDaySameHour)).
Proof.
  refine (constructed_invariants english (DayInt 5) 22 0 (DayInt 1) 6 0
            fri_2200_mon_0600 _).
  reflexivity.
Defined.

(** "Mon 10:00 - Mon 10:00" and "noon - 13:00". *)
Lemma createFromStr_raises_witness :
  createFromStr english "Mon 10:00 - Mon 10:00" =
    Raise (ValueError MsgSameTime) /\
  is_ValueError (ValueError MsgSameTime) = true /\
  createFromStr english "noon - 13:00" =
    Raise (ValueError (MsgFormat "noon - 13:00")) /\
  is_ValueError (ValueError (MsgFormat "noon - 13:00")) = true.
Proof.
  split; [vm_compute; reflexivity|]. split; [|split].
  - refine (createFromStr_raises english "Mon 10:00 - Mon 10:00" _ _).
    vm_compute. reflexivity.
  - vm_compute. reflexivity.
  - refine (createFromStr_raises english "noon - 13:00" _ _).
    vm_compute. reflexivity.
Defined.

End InvariantsWitness.
